(** * Crypto Alpha: the aggregation and signal pipeline of [src/index.ts]

    A shallow embedding of the TypeScript sources: the source clients
    ([fetchFearGreed] ... [fetchTokenInfo]), the signal engine
    ([buildAlphaSignals]) and the route handlers registered in [main].

    Conventions of the embedding.
    - Upstream payloads are JSON parsed into [any]; the embedding gives
      each payload the record shape the code reads from it, and every
      property read is nullable: [js A] is [undefined], [null] or a value.
    - A JavaScript number read from JSON is a finite double, that is a
      rational: numbers are [Q], and [<], [>] and the sign of a difference
      are the exact ones; a quotient is rounded to binary64 ([round64]).
      [NaN] appears where the code can compute it.
    - Strings are byte strings; case conversion is the ASCII one.
    - A thrown exception or a rejected promise is [Throw e]; every
      outbound call is taken to settle, one way or the other.
    - A request body is whatever [c.req.json()] gives: the JSON value
      [null], or an object with an optional [input]. *)

From Stdlib Require Import ZArith QArith Qabs Qround List String Ascii Bool Lia.
From Stdlib Require Import Sorting.Sorted Sorting.Permutation.
From Stdlib Require Import Numbers.DecimalString.
Import ListNotations.

Local Open Scope string_scope.
Local Open Scope Z_scope.

(* ================================================================== *)
(** ** JavaScript values and exceptions *)

Inductive js (A : Type) : Type :=
| undefined
| null
| val (a : A).
Arguments undefined {A}.
Arguments null {A}.
Arguments val {A} a.

Inductive JsError : Type :=
| TypeError (message : string)
| RangeError (message : string)
| SyntaxError (message : string)
| Error (message : string).

Definition message (e : JsError) : string :=
  match e with
  | TypeError m | RangeError m | SyntaxError m | Error m => m
  end.

Inductive completion (A : Type) : Type :=
| Return (a : A)
| Throw (e : JsError).
Arguments Return {A} a.
Arguments Throw {A} e.

Definition bind {A B} (c : completion A) (k : A -> completion B) : completion B :=
  match c with
  | Return a => k a
  | Throw e => Throw e
  end.

Declare Scope js_scope.
Delimit Scope js_scope with js.
Notation "x <- c ;; k" := (bind c (fun x => k))
  (at level 61, c at next level, right associativity) : js_scope.
Local Open Scope js_scope.

(** [try { c } catch (err) { h err }] *)
Definition try_catch {A} (c : completion A) (h : JsError -> completion A) : completion A :=
  match c with
  | Return a => Return a
  | Throw e => h e
  end.

(** Optional chaining [x?.f]: [undefined] when [x] is [undefined] or [null]. *)
Definition chain {A B} (x : js A) (f : A -> js B) : js B :=
  match x with
  | val a => f a
  | _ => undefined
  end.
Notation "x ?> f" := (chain x f) (at level 40, left associativity) : js_scope.

(** Plain member access [x.f]: a [TypeError] when [x] is [undefined] or [null]. *)
Definition member {A} (x : js A) (what : string) : completion A :=
  match x with
  | val a => Return a
  | undefined => Throw (TypeError ("Cannot read properties of undefined (reading '" ++ what ++ "')"))
  | null => Throw (TypeError ("Cannot read properties of null (reading '" ++ what ++ "')"))
  end.

(** Array indexing [a[i]]: [undefined] out of range. *)
Definition at_index {A} (i : nat) (a : list A) : js A :=
  match nth_error a i with
  | Some x => val x
  | None => undefined
  end.

(** [a.slice(0, n)] on an array. *)
Definition slice0 {A} (n : nat) (a : list A) : list A := firstn n a.

(** Truthiness, for [||] and [?:]. *)
Class Truthy (A : Type) := truthy : A -> bool.
#[export] Instance Truthy_string : Truthy string := fun s => negb (String.eqb s "").
#[export] Instance Truthy_list {A} : Truthy (list A) := fun _ => true.
#[export] Instance Truthy_Z : Truthy Z := fun z => negb (z =? 0).
#[export] Instance Truthy_Q : Truthy Q := fun q => negb (Qeq_bool q 0).

(** [x || d], continued by [k] on the left operand when it is truthy. *)
Definition or_with {A B} `{Truthy A} (x : js A) (k : A -> B) (d : B) : B :=
  match x with
  | val a => if truthy a then k a else d
  | _ => d
  end.
Definition or_else {A} `{Truthy A} (x : js A) (d : A) : A := or_with x (fun a => a) d.
Notation "x ||| d" := (or_else x d) (at level 50, left associativity) : js_scope.

(** Numbers as the code computes with them. *)
Inductive number : Type :=
| NaN
| Num (q : Q).

(** [ToNumber] on a nullable JSON number. *)
Definition ToNumber (x : js Q) : number :=
  match x with
  | undefined => NaN
  | null => Num 0
  | val q => Num q
  end.

Definition Qltb (x y : Q) : bool := negb (Qle_bool y x).

(** [a < b] and [a > b]: false as soon as one side is [NaN]. *)
Definition lt (a b : number) : bool :=
  match a, b with
  | Num x, Num y => Qltb x y
  | _, _ => false
  end.
Definition gt (a b : number) : bool := lt b a.

Definition sub (a b : number) : number :=
  match a, b with
  | Num x, Num y => Num (x - y)
  | _, _ => NaN
  end.

(** [2^k] for any integer [k]. *)
Definition pow2 (k : Z) : Q :=
  if 0 <=? k then inject_Z (2 ^ k) else 1 # Z.to_pos (2 ^ (- k)).

(** The integer nearest to [x], ties going to the even one. *)
Definition round_half_even (x : Q) : Z :=
  let f := Qfloor x in
  let r := (x - inject_Z f)%Q in
  if Qltb r (1 # 2) then f
  else if Qltb (1 # 2) r then f + 1
  else if Z.even f then f else f + 1.

(** The exponent [e] with [2^e <= a < 2^(e+1)], for [a > 0]. *)
Definition binade (a : Q) : Z :=
  let k := Z.log2 (Qnum a) - Z.log2 (Zpos (Qden a)) in
  if Qle_bool (pow2 k) a then k else k - 1.

(** Rounding to binary64: to nearest, ties to even, with 53 significant
    bits and gradual underflow below [2^-1022]. *)
Definition round64 (q : Q) : Q :=
  if Qeq_bool q 0 then 0%Q
  else
    let a := Qabs q in
    let ulp := pow2 (Z.max (binade a - 52) (-1074)) in
    let m := inject_Z (round_half_even (a / ulp)) in
    Qred (if Qltb q 0 then - (m * ulp) else m * ulp)%Q.

(** [a / b], correctly rounded as IEEE division is.  The code only
    divides by the constant [1e9], so neither a zero divisor nor an
    overflow arises. *)
Definition div (a b : number) : number :=
  match a, b with
  | Num x, Num y => if Qeq_bool y 0 then NaN else Num (round64 (x / y))
  | _, _ => NaN
  end.

(* ================================================================== *)
(** ** Strings *)

Definition is_upper (c : ascii) : bool :=
  let n := nat_of_ascii c in (65 <=? n)%nat && (n <=? 90)%nat.
Definition is_lower (c : ascii) : bool :=
  let n := nat_of_ascii c in (97 <=? n)%nat && (n <=? 122)%nat.

Definition lower_char (c : ascii) : ascii :=
  if is_upper c then ascii_of_nat (nat_of_ascii c + 32) else c.
Definition upper_char (c : ascii) : ascii :=
  if is_lower c then ascii_of_nat (nat_of_ascii c - 32) else c.

Fixpoint map_string (f : ascii -> ascii) (s : string) : string :=
  match s with
  | EmptyString => EmptyString
  | String c s' => String (f c) (map_string f s')
  end.

Definition toLowerCase (s : string) : string := map_string lower_char s.
Definition toUpperCase (s : string) : string := map_string upper_char s.

(** [s.slice(0, n)] on a string. *)
Definition str_slice0 (n : nat) (s : string) : string := substring 0 n s.

(** [s.includes(t)], as a proposition. *)
Definition includes (s t : string) : Prop := exists pre post, s = pre ++ t ++ post.

(** Decimal rendering of an integer, as [String(n)] gives it for an
    integer-valued number below 10^21 in magnitude. *)
Definition show_Z (z : Z) : string := NilZero.string_of_int (Z.to_int z).
Definition show_nat (n : nat) : string := show_Z (Z.of_nat n).

(** What a template literal prints for a nullable string. *)
Definition tpl (x : js string) : string :=
  match x with
  | undefined => "undefined"
  | null => "null"
  | val s => s
  end.

(** *** [parseInt] with no radix argument *)

Definition is_space (c : ascii) : bool :=
  let n := nat_of_ascii c in ((9 <=? n)%nat && (n <=? 13)%nat) || (n =? 32)%nat.

Fixpoint trim_start (s : string) : string :=
  match s with
  | String c s' => if is_space c then trim_start s' else s
  | EmptyString => EmptyString
  end.

Definition digit_value (c : ascii) : option Z :=
  let n := Z.of_nat (nat_of_ascii c) in
  if (48 <=? n) && (n <=? 57) then Some (n - 48)
  else if (97 <=? n) && (n <=? 122) then Some (n - 87)
  else if (65 <=? n) && (n <=? 90) then Some (n - 55)
  else None.

(** The longest prefix of radix-[r] digits, [None] when it is empty. *)
Fixpoint digits_prefix (r : Z) (s : string) (acc : option Z) : option Z :=
  match s with
  | EmptyString => acc
  | String c s' =>
      match digit_value c with
      | Some d =>
          if d <? r
          then digits_prefix r s' (Some (match acc with Some a => a * r + d | None => d end))
          else acc
      | None => acc
      end
  end.

Definition strip_sign (s : string) : Z * string :=
  match s with
  | String "-" s' => (-1, s')
  | String "+" s' => (1, s')
  | _ => (1, s)
  end.

Definition strip_radix (s : string) : Z * string :=
  match s with
  | String "0" (String "x" s') => (16, s')
  | String "0" (String "X" s') => (16, s')
  | _ => (10, s)
  end.

(** [parseInt(s)]: an integer, or [None] for [NaN]. *)
Definition parseInt (s : string) : option Z :=
  let '(sign, s1) := strip_sign (trim_start s) in
  let '(radix, s2) := strip_radix s1 in
  option_map (Z.mul sign) (digits_prefix radix s2 None).

(** [parseInt(x)] on a nullable string: [String(undefined)] and
    [String(null)] have no digits. *)
Definition parseInt_js (x : js string) : option Z := parseInt (tpl x).

(** [n <= k] and [n >= k] on a [parseInt] result. *)
Definition le_int (n : option Z) (k : Z) : bool :=
  match n with Some z => z <=? k | None => false end.
Definition ge_int (n : option Z) (k : Z) : bool :=
  match n with Some z => z >=? k | None => false end.

Definition show_int (n : option Z) : string :=
  match n with Some z => show_Z z | None => "NaN" end.

(** *** [Number.prototype.toFixed] *)

Fixpoint zeros (n : nat) : string :=
  match n with O => "" | S n' => String "0" (zeros n') end.

(** [x.toFixed(f)]: the nearest multiple of 10^-f, ties going up in
    magnitude, with [f] fractional digits (fixed notation throughout). *)
Definition toFixed (x : number) (f : nat) : string :=
  match x with
  | NaN => "NaN"
  | Num q =>
      let n := Qfloor (Qabs q * inject_Z (10 ^ Z.of_nat f) + (1 # 2)) in
      let m := show_Z n in
      let m := zeros (S f - String.length m) ++ m in
      let k := (String.length m - f)%nat in
      let body := if (f =? 0)%nat then m
                  else substring 0 k m ++ "." ++ substring k f m in
      if Qltb q 0 then "-" ++ body else body
  end.

(* ================================================================== *)
(** ** Data model *)

(** The sentiment index payload (alternative.me). *)
Module Fng.
Record entry : Type := {
  value : js string;
  value_classification : js string;
  timestamp : js string
}.
Record payload : Type := { data : js (list entry) }.
End Fng.

(** The trending feed (CoinGecko search/trending). *)
Module Trending.
Record change : Type := { usd : js Q }.
Record item_data : Type := {
  price : js Q;
  price_change_percentage_24h : js change;
  market_cap : js string
}.
Record item : Type := {
  symbol : js string;
  name : js string;
  market_cap_rank : js Z;
  data : js item_data
}.
Record coin : Type := { item_ : js item }.
Record nft_data : Type := {
  floor_price : js string;
  floor_price_in_usd_24h_percentage_change : js Q
}.
Record nft : Type := { nft_name : js string; nft_data_ : js nft_data }.
Record payload : Type := { coins : js (list coin); nfts : js (list nft) }.
End Trending.

(** One row of the market snapshot (CoinGecko coins/markets). *)
Module Market.
Record coin : Type := {
  current_price : js Q;
  price_change_percentage_24h : js Q
}.
End Market.

(** The raw DeFi feeds (DefiLlama protocols and DEX overview). *)
Module Llama.
Record protocol : Type := {
  name : js string;
  category : js string;
  tvl : js Q;
  change_1d : js Q;
  change_7d : js Q;
  chains : js (list string);
  url : js string
}.
Record dexs : Type := {
  total24h : js Q;
  dex_change_1d : js Q;
  dex_change_7d : js Q;
  totalAllTime : js Q
}.
End Llama.

(** What [fetchTopDeFi] returns for one protocol. *)
Record DeFiProtocol : Type := {
  name : js string;
  category : js string;
  tvl : js Q;
  tvlChange24h : js Q;
  tvlChange7d : js Q;
  chains : list string;
  url : js string
}.

(** What [fetchDexVolume] returns. *)
Record DexVolume : Type := {
  total24h : js Q;
  change24h : js Q;
  change7d : js Q;
  totalAllTime : js Q
}.

Inductive SignalType : Type := sentiment | whale | narrative | protocol.
Inductive Confidence : Type := low | medium | high.

(** One pushed signal; [asset] is [undefined] where the literal has no
    such property. *)
Record AlphaSignal : Type := {
  type : SignalType;
  asset : js string;
  title : string;
  details : string;
  confidence : Confidence;
  actionable : bool
}.

(* ================================================================== *)
(** ** The signal engine *)

(** [a.push(x)] on the local array, as the new array. *)
Definition push {A} (a : list A) (x : A) : list A := a ++ [x].

(** [for (const x of l) body], threading the state [s]. *)
Fixpoint for_of {A S} (l : list A) (s : S) (body : S -> A -> completion S) : completion S :=
  match l with
  | [] => Return s
  | x :: l' => s' <- body s x ;; for_of l' s' body
  end.

Definition fgValue_of (fearGreed : js Fng.payload) : option Z :=
  parseInt (fearGreed ?> Fng.data ?> at_index 0 ?> Fng.value ||| "50").

Definition buildAlphaSignals
    (fearGreed : js Fng.payload) (trending : js Trending.payload)
    (topCoins : js (list Market.coin)) (defi : js (list DeFiProtocol))
    (dexVolume : js DexVolume) : completion (list AlphaSignal) :=
  let signals : list AlphaSignal := [] in
  let fgValue := fgValue_of fearGreed in
  let fgClass := fearGreed ?> Fng.data ?> at_index 0 ?> Fng.value_classification ||| "Neutral" in
  let signals :=
    if le_int fgValue 25 then
      push signals {|
        type := sentiment;
        asset := undefined;
        title := fgClass ++ " (" ++ show_int fgValue ++ ") - Potential Buy Zone";
        details := "Extreme fear often precedes market reversals. Consider accumulation.";
        confidence := if le_int fgValue 15 then high else medium;
        actionable := true |}
    else if ge_int fgValue 75 then
      push signals {|
        type := sentiment;
        asset := undefined;
        title := fgClass ++ " (" ++ show_int fgValue ++ ") - Caution Zone";
        details := "Extreme greed often precedes corrections. Consider taking profits.";
        confidence := if ge_int fgValue 85 then high else medium;
        actionable := true |}
    else signals in
  signals <-
    (if gt (ToNumber (dexVolume ?> change24h)) (Num 5)
        && lt (ToNumber (topCoins ?> at_index 0 ?> Market.price_change_percentage_24h)) (Num (-2))
     then
       dv <- member dexVolume "change24h" ;;
       c <- member (change24h dv) "toFixed" ;;
       Return (push signals {|
         type := whale;
         asset := undefined;
         title := "Volume/Price Divergence - Smart Money Repositioning";
         details := "DEX volume up " ++ toFixed (Num c) 1 ++ "% while prices down. Potential accumulation.";
         confidence := medium;
         actionable := true |})
     else Return signals) ;;
  let trendingCoins := trending ?> Trending.coins ||| [] in
  signals <-
    for_of (slice0 3 trendingCoins) signals (fun signals coin =>
      let priceChange :=
        Trending.item_ coin ?> Trending.data ?> Trending.price_change_percentage_24h ?> Trending.usd in
      if gt (ToNumber priceChange) (Num 10) then
        pc <- member priceChange "toFixed" ;;
        Return (push signals {|
          type := narrative;
          asset := Trending.item_ coin ?> Trending.symbol ?> (fun s => val (toUpperCase s));
          title := tpl (Trending.item_ coin ?> Trending.name) ++ " trending +" ++ toFixed (Num pc) 1 ++ "%";
          details := "Rank #" ++ or_with (Trending.item_ coin ?> Trending.market_cap_rank) show_Z "?"
                       ++ ", strong momentum against market";
          confidence := medium;
          actionable := true |})
      else Return signals) ;;
  defi <- member defi "slice" ;;
  signals <-
    for_of (slice0 3 defi) signals (fun signals protocol_ =>
      if gt (ToNumber (tvlChange7d protocol_)) (Num 10) then
        c <- member (tvlChange7d protocol_) "toFixed" ;;
        Return (push signals {|
          type := protocol;
          asset := name protocol_;
          title := tpl (name protocol_) ++ " TVL up " ++ toFixed (Num c) 1 ++ "% weekly";
          details := "Category: " ++ tpl (category protocol_) ++ ", TVL: $"
                       ++ toFixed (div (ToNumber (tvl protocol_)) (Num (inject_Z 1000000000))) 2 ++ "B";
          confidence := medium;
          actionable := true |})
      else Return signals) ;;
  Return signals.

(** *** The contribution of each rule

    The signals each of the four blocks of [buildAlphaSignals] appends,
    written block by block; [buildAlphaSignals_array] below shows that
    the engine returns their concatenation. *)

Definition fgClass_of (fearGreed : js Fng.payload) : string :=
  fearGreed ?> Fng.data ?> at_index 0 ?> Fng.value_classification ||| "Neutral".

Definition sentiment_rule (fearGreed : js Fng.payload) : list AlphaSignal :=
  let fgValue := fgValue_of fearGreed in
  let fgClass := fgClass_of fearGreed in
  if le_int fgValue 25 then
    [ {| type := sentiment; asset := undefined;
         title := fgClass ++ " (" ++ show_int fgValue ++ ") - Potential Buy Zone";
         details := "Extreme fear often precedes market reversals. Consider accumulation.";
         confidence := if le_int fgValue 15 then high else medium;
         actionable := true |} ]
  else if ge_int fgValue 75 then
    [ {| type := sentiment; asset := undefined;
         title := fgClass ++ " (" ++ show_int fgValue ++ ") - Caution Zone";
         details := "Extreme greed often precedes corrections. Consider taking profits.";
         confidence := if ge_int fgValue 85 then high else medium;
         actionable := true |} ]
  else [].

Definition dexChange (dexVolume : js DexVolume) : js Q := dexVolume ?> change24h.
Definition primaryChange (topCoins : js (list Market.coin)) : js Q :=
  topCoins ?> at_index 0 ?> Market.price_change_percentage_24h.

Definition whale_rule (topCoins : js (list Market.coin)) (dexVolume : js DexVolume)
  : list AlphaSignal :=
  match dexChange dexVolume, primaryChange topCoins with
  | val v, val p =>
      if Qltb 5 v && Qltb p (-2) then
        [ {| type := whale; asset := undefined;
             title := "Volume/Price Divergence - Smart Money Repositioning";
             details := "DEX volume up " ++ toFixed (Num v) 1
                          ++ "% while prices down. Potential accumulation.";
             confidence := medium; actionable := true |} ]
      else []
  | _, _ => []
  end.

Definition trendingCoins_of (trending : js Trending.payload) : list Trending.coin :=
  trending ?> Trending.coins ||| [].

Definition priceChange_of (coin : Trending.coin) : js Q :=
  Trending.item_ coin ?> Trending.data ?> Trending.price_change_percentage_24h ?> Trending.usd.

Definition narrative_signal (coin : Trending.coin) (pc : Q) : AlphaSignal :=
  {| type := narrative;
     asset := Trending.item_ coin ?> Trending.symbol ?> (fun s => val (toUpperCase s));
     title := tpl (Trending.item_ coin ?> Trending.name) ++ " trending +" ++ toFixed (Num pc) 1 ++ "%";
     details := "Rank #" ++ or_with (Trending.item_ coin ?> Trending.market_cap_rank) show_Z "?"
                  ++ ", strong momentum against market";
     confidence := medium; actionable := true |}.

Definition narrative_rule (coin : Trending.coin) : list AlphaSignal :=
  match priceChange_of coin with
  | val pc => if Qltb 10 pc then [narrative_signal coin pc] else []
  | _ => []
  end.

Definition protocol_signal (p : DeFiProtocol) (c : Q) : AlphaSignal :=
  {| type := protocol;
     asset := name p;
     title := tpl (name p) ++ " TVL up " ++ toFixed (Num c) 1 ++ "% weekly";
     details := "Category: " ++ tpl (category p) ++ ", TVL: $"
                  ++ toFixed (div (ToNumber (tvl p)) (Num (inject_Z 1000000000))) 2 ++ "B";
     confidence := medium; actionable := true |}.

Definition protocol_rule (p : DeFiProtocol) : list AlphaSignal :=
  match tvlChange7d p with
  | val c => if Qltb 10 c then [protocol_signal p c] else []
  | _ => []
  end.

Definition SignalType_eqb (a b : SignalType) : bool :=
  match a, b with
  | sentiment, sentiment | whale, whale | narrative, narrative | protocol, protocol => true
  | _, _ => false
  end.

(** The signals of one kind, in list order. *)
Definition of_type (t : SignalType) (signals : list AlphaSignal) : list AlphaSignal :=
  filter (fun s => SignalType_eqb (type s) t) signals.

(* ================================================================== *)
(** ** Source clients *)

(** What [await fetch(url)] resolves to: the status flag and the outcome
    of [res.json()], which rejects when the body is not JSON. *)
Record Response (A : Type) : Type := { ok : bool; json : completion A }.
Arguments ok {A} r.
Arguments json {A} r.

(** The single-asset detail payload (CoinGecko coins/{id}). *)
Module Gecko.
Record usd_number : Type := { usd : js Q }.
Record usd_string : Type := { usd_text : js string }.
Record market_data : Type := {
  current_price : js usd_number;
  price_change_percentage_24h : js Q;
  price_change_percentage_7d : js Q;
  market_cap : js usd_number;
  total_volume : js usd_number;
  ath : js usd_number;
  ath_date : js usd_string;
  ath_change_percentage : js usd_number
}.
Record description : Type := { en : js string }.
Record detail : Type := {
  id : js string;
  symbol : js string;
  name : js string;
  market_data_ : js market_data;
  market_cap_rank : js Z;
  categories : js (list string);
  description_ : js description
}.
End Gecko.

(** The world outside the process for one request: the outcome of each
    outbound [fetch] (a rejected [fetch] is a [Throw]), and the values
    [crypto.randomUUID()] and [new Date().toISOString()] produce. *)
Record Upstream : Type := {
  fng : completion (Response Fng.payload);
  search_trending : completion (Response Trending.payload);
  coins_markets : completion (Response (list Market.coin));
  protocols : completion (Response (list Llama.protocol));
  overview_dexs : completion (Response Llama.dexs);
  coins : string -> completion (Response Gecko.detail);
  randomUUID : string;
  now : string
}.

Definition fetchFearGreed (up : Upstream) : completion Fng.payload :=
  res <- fng up ;;
  json res.

Definition fetchTrending (up : Upstream) : completion Trending.payload :=
  res <- search_trending up ;;
  json res.

Definition fetchTopCoins (up : Upstream) : completion (list Market.coin) :=
  res <- coins_markets up ;;
  json res.

(** [Array.prototype.sort(cmp)]: the stable sort; [x] is moved behind [y]
    when [cmp(x, y) > 0]. *)
Fixpoint sort_insert {A} (cmp : A -> A -> number) (x : A) (l : list A) : list A :=
  match l with
  | [] => [x]
  | y :: l' => if gt (cmp x y) (Num 0) then y :: sort_insert cmp x l' else x :: l
  end.

Definition sort {A} (cmp : A -> A -> number) (l : list A) : list A :=
  fold_right (sort_insert cmp) [] l.

(** [(a, b) => (b.tvl || 0) - (a.tvl || 0)] *)
Definition by_tvl_desc (a b : Llama.protocol) : number :=
  sub (Num (Llama.tvl b ||| 0%Q)) (Num (Llama.tvl a ||| 0%Q)).

(** The pipeline [fetchTopDeFi] applies to the parsed protocol list. *)
Definition topDeFi_of (protocols : list Llama.protocol) : list DeFiProtocol :=
  map (fun p => {|
         name := Llama.name p;
         category := Llama.category p;
         tvl := Llama.tvl p;
         tvlChange24h := Llama.change_1d p;
         tvlChange7d := Llama.change_7d p;
         chains := Llama.chains p ?> (fun c => val (slice0 5 c)) ||| [];
         url := Llama.url p |})
      (slice0 10
         (sort by_tvl_desc
            (filter (fun p => gt (ToNumber (Llama.tvl p)) (Num 0)) protocols))).

Definition fetchTopDeFi (up : Upstream) : completion (list DeFiProtocol) :=
  res <- protocols up ;;
  protocols <- json res ;;
  Return (topDeFi_of protocols).

Definition fetchDexVolume (up : Upstream) : completion DexVolume :=
  res <- overview_dexs up ;;
  data <- json res ;;
  Return {|
    total24h := Llama.total24h data;
    change24h := Llama.dex_change_1d data;
    change7d := Llama.dex_change_7d data;
    totalAllTime := Llama.totalAllTime data |}.

(** What [fetchTokenInfo] returns. *)
Record TokenInfo : Type := {
  id : js string;
  symbol : js string;
  token_name : js string;
  price : js Q;
  priceChange24h : js Q;
  priceChange7d : js Q;
  marketCap : js Q;
  marketCapRank : js Z;
  volume24h : js Q;
  ath : js Q;
  athDate : js string;
  athChangePercentage : js Q;
  categories : list string;
  description : string
}.

Definition fetchTokenInfo (up : Upstream) (tokenId : string) : completion TokenInfo :=
  res <- coins up tokenId ;;
  if negb (ok res) then Throw (Error ("Token " ++ tokenId ++ " not found"))
  else
    data <- json res ;;
    let market_data := Gecko.market_data_ data in
    Return {|
      id := Gecko.id data;
      symbol := Gecko.symbol data ?> (fun s => val (toUpperCase s));
      token_name := Gecko.name data;
      price := market_data ?> Gecko.current_price ?> Gecko.usd;
      priceChange24h := market_data ?> Gecko.price_change_percentage_24h;
      priceChange7d := market_data ?> Gecko.price_change_percentage_7d;
      marketCap := market_data ?> Gecko.market_cap ?> Gecko.usd;
      marketCapRank := Gecko.market_cap_rank data;
      volume24h := market_data ?> Gecko.total_volume ?> Gecko.usd;
      ath := market_data ?> Gecko.ath ?> Gecko.usd;
      athDate := market_data ?> Gecko.ath_date ?> Gecko.usd_text;
      athChangePercentage := market_data ?> Gecko.ath_change_percentage ?> Gecko.usd;
      categories := Gecko.categories data ?> (fun c => val (slice0 5 c)) ||| [];
      description :=
        Gecko.description_ data ?> Gecko.en ?> (fun s => val (str_slice0 500 s)) ||| "" |}.

(* ================================================================== *)
(** ** Route handlers *)

(** A request body that is an object [{ "input": { ... } }], with
    [sources] a list of strings and [token] a string where present.  A
    body that is a number, a string, a boolean or an array has no [input]
    property and reads like the object without one. *)
Record Input : Type := { sources : js (list string); token : js string }.
Record Body : Type := { input : js Input }.
#[export] Instance Truthy_Input : Truthy Input := fun _ => true.

(** What [c.req.json()] settles to: [Return null] for the JSON body
    [null], [Return (val b)] for an object, a [Throw] when the body is
    not JSON. *)
Definition Request : Type := completion (js Body).

(** [await c.req.json().catch(() => ({}))]: when [c.req.json()] rejects
    the handler goes on with [{}]; a body that parses is taken as it is,
    [null] included. *)
Definition body_of (req : Request) : js Body :=
  match req with
  | Return b => b
  | Throw _ => val {| input := undefined |}
  end.

Definition empty_input : Input := {| sources := undefined; token := undefined |}.

Inductive Status : Type := succeeded | failed.

(** The JSON document a handler answers with. *)
Record Reply (O : Type) : Type := { run_id : string; status : Status; output : O }.
Arguments run_id {O} r.
Arguments status {O} r.
Arguments output {O} r.

(** [a.includes(x)] on an array of strings. *)
Definition array_includes (a : list string) (x : string) : bool :=
  existsb (String.eqb x) a.

(** [for] over [a.map(f)] when [f] can throw. *)
Fixpoint map_m {A B} (f : A -> completion B) (l : list A) : completion (list B) :=
  match l with
  | [] => Return []
  | x :: l' => y <- f x ;; ys <- map_m f l' ;; Return (y :: ys)
  end.

(** *** Calendar dates of [Date.prototype.toISOString] *)

(** Year, month and day of a day number counted from 1970-01-01. *)
Definition civil_from_days (z : Z) : Z * Z * Z :=
  let z := z + 719468 in
  let era := z / 146097 in
  let doe := z - era * 146097 in
  let yoe := (doe - doe / 1460 + doe / 36524 - doe / 146096) / 365 in
  let doy := doe - (365 * yoe + yoe / 4 - yoe / 100) in
  let mp := (5 * doy + 2) / 153 in
  let d := doy - (153 * mp + 2) / 5 + 1 in
  let m := if mp <? 10 then mp + 3 else mp - 9 in
  let y := yoe + era * 400 in
  (if m <=? 2 then y + 1 else y, m, d).

Definition pad_left (width : nat) (s : string) : string :=
  zeros (width - String.length s) ++ s.

Definition show_year (y : Z) : string :=
  if (0 <=? y) && (y <=? 9999) then pad_left 4 (show_Z y)
  else if y <? 0 then "-" ++ pad_left 6 (show_Z (- y))
  else "+" ++ pad_left 6 (show_Z y).

(** [new Date(t).toISOString().split('T')[0]] for a time value [t] in
    milliseconds ([None] is NaN): a [RangeError] on an invalid date. *)
Definition iso_date (t : option Z) : completion string :=
  match t with
  | Some ms =>
      if Z.abs ms <=? 8640000000000000 then
        let '(y, m, d) := civil_from_days (ms / 86400000) in
        Return (show_year y ++ "-" ++ pad_left 2 (show_Z m) ++ "-" ++ pad_left 2 (show_Z d))
      else Throw (RangeError "Invalid time value")
  | None => Throw (RangeError "Invalid time value")
  end.

(** *** POST /entrypoints/fear-greed/invoke *)
Module FearGreedOut.
Record reading : Type := { value : option Z; classification : string }.
Record past : Type := { past_value : option Z; past_classification : js string; date : string }.
Record t : Type := { current : reading; history : list past; interpretation : string }.
End FearGreedOut.

Definition fear_greed (up : Upstream) : completion (Reply FearGreedOut.t) :=
  data <- fetchFearGreed up ;;
  let first := Fng.data data ?> at_index 0 in
  history <-
    match Fng.data data with
    | val entries =>
        map_m (fun d =>
                 date <- iso_date (option_map (fun n => n * 1000) (parseInt_js (Fng.timestamp d))) ;;
                 Return {| FearGreedOut.past_value := parseInt_js (Fng.value d);
                           FearGreedOut.past_classification := Fng.value_classification d;
                           FearGreedOut.date := date |})
              entries
    | _ => Return []
    end ;;
  Return {|
    run_id := randomUUID up;
    status := succeeded;
    output := {|
      FearGreedOut.current := {|
        FearGreedOut.value := parseInt (first ?> Fng.value ||| "50");
        FearGreedOut.classification := first ?> Fng.value_classification ||| "Unknown" |};
      FearGreedOut.history := history;
      FearGreedOut.interpretation :=
        if le_int (parseInt (first ?> Fng.value ||| "50")) 25
        then "Extreme fear often signals buying opportunities"
        else if ge_int (parseInt (first ?> Fng.value ||| "50")) 75
        then "Extreme greed may signal market tops"
        else "Market sentiment is neutral to moderate" |} |}.

(** *** POST /entrypoints/daily-alpha/invoke *)
Module Digest.
Record context : Type := {
  fearGreedIndex : option Z;
  fearGreedClass : string;
  btcPrice : js Q;
  btcChange24h : js Q;
  ethPrice : js Q;
  ethChange24h : js Q;
  dexVolume24h : js Q;
  dexVolumeChange : js Q
}.
Record trending_row : Type := { symbol : js string; name : js string; rank : js Z }.
Record defi_row : Type := { defi_name : js string; tvl : string; category : js string }.
Record t : Type := {
  timestamp : string;
  summary : string;
  marketContext : context;
  signals : list AlphaSignal;
  trending : list trending_row;
  topDeFi : list defi_row;
  disclaimer : string
}.
End Digest.

(** One element of the array given to [Promise.all]: the client call when
    the source is selected, [null] otherwise. *)
Definition when_selected {A} (selected : bool) (call : completion A) : completion (js A) :=
  if selected then (x <- call ;; Return (val x)) else Return null.

Definition billions (x : js Q) : string :=
  "$" ++ toFixed (div (ToNumber x) (Num (inject_Z 1000000000))) 2 ++ "B".

(** [Promise.all] rejects as soon as one of its promises rejects; the
    handler awaits it outside any [try], so the rejection leaves the
    handler.  Which reason wins when several reject is a matter of
    timing; the embedding reports the first in array order. *)
Definition daily_alpha (up : Upstream) (req : Request) : completion (Reply Digest.t) :=
  let body := body_of req in
  body <- member body "input" ;;
  let input := input body ||| empty_input in
  let sources := sources input ||| ["coingecko"; "defillama"; "feargreed"] in
  fearGreed <- when_selected (array_includes sources "feargreed") (fetchFearGreed up) ;;
  trending <- when_selected (array_includes sources "coingecko") (fetchTrending up) ;;
  topCoins <- when_selected (array_includes sources "coingecko") (fetchTopCoins up) ;;
  defi <- when_selected (array_includes sources "defillama") (fetchTopDeFi up) ;;
  dexVolume <- when_selected (array_includes sources "defillama") (fetchDexVolume up) ;;
  signals <- buildAlphaSignals fearGreed trending topCoins defi dexVolume ;;
  let first := fearGreed ?> Fng.data ?> at_index 0 in
  Return {|
    run_id := randomUUID up;
    status := succeeded;
    output := {|
      Digest.timestamp := now up;
      Digest.summary :=
        if (0 <? List.length signals)%nat
        then show_nat (List.length signals) ++ " alpha signals detected"
        else "No strong signals - market neutral";
      Digest.marketContext := {|
        Digest.fearGreedIndex := parseInt (first ?> Fng.value ||| "50");
        Digest.fearGreedClass := first ?> Fng.value_classification ||| "Unknown";
        Digest.btcPrice := topCoins ?> at_index 0 ?> Market.current_price;
        Digest.btcChange24h := topCoins ?> at_index 0 ?> Market.price_change_percentage_24h;
        Digest.ethPrice := topCoins ?> at_index 1 ?> Market.current_price;
        Digest.ethChange24h := topCoins ?> at_index 1 ?> Market.price_change_percentage_24h;
        Digest.dexVolume24h := dexVolume ?> total24h;
        Digest.dexVolumeChange := dexVolume ?> change24h |};
      Digest.signals := signals;
      Digest.trending :=
        trending ?> Trending.coins
          ?> (fun coins => val (map (fun c => {|
                Digest.symbol := Trending.item_ c ?> Trending.symbol ?> (fun s => val (toUpperCase s));
                Digest.name := Trending.item_ c ?> Trending.name;
                Digest.rank := Trending.item_ c ?> Trending.market_cap_rank |})
              (slice0 5 coins)))
          ||| [];
      Digest.topDeFi :=
        defi ?> (fun d => val (map (fun p => {|
                Digest.defi_name := name p;
                Digest.tvl := billions (tvl p);
                Digest.category := category p |})
              (slice0 5 d)))
          ||| [];
      Digest.disclaimer := "Not financial advice. DYOR." |} |}.

(** *** POST /entrypoints/trending/invoke *)
Module TrendingOut.
Record coin_row : Type := {
  symbol : js string;
  name : js string;
  rank : js Z;
  price : js Q;
  priceChange24h : js Q;
  marketCap : js string
}.
Record nft_row : Type := { nft_name : js string; floorPrice : js string; change24h : js Q }.
Record t : Type := { timestamp : string; coins : list coin_row; nfts : list nft_row }.
End TrendingOut.

Definition trending (up : Upstream) : completion (Reply TrendingOut.t) :=
  data <- fetchTrending up ;;
  Return {|
    run_id := randomUUID up;
    status := succeeded;
    output := {|
      TrendingOut.timestamp := now up;
      TrendingOut.coins :=
        Trending.coins data
          ?> (fun coins => val (map (fun coin => {|
                TrendingOut.symbol :=
                  Trending.item_ coin ?> Trending.symbol ?> (fun s => val (toUpperCase s));
                TrendingOut.name := Trending.item_ coin ?> Trending.name;
                TrendingOut.rank := Trending.item_ coin ?> Trending.market_cap_rank;
                TrendingOut.price := Trending.item_ coin ?> Trending.data ?> Trending.price;
                TrendingOut.priceChange24h := priceChange_of coin;
                TrendingOut.marketCap := Trending.item_ coin ?> Trending.data ?> Trending.market_cap |})
              (slice0 10 coins)))
          ||| [];
      TrendingOut.nfts :=
        Trending.nfts data
          ?> (fun nfts => val (map (fun n => {|
                TrendingOut.nft_name := Trending.nft_name n;
                TrendingOut.floorPrice := Trending.nft_data_ n ?> Trending.floor_price;
                TrendingOut.change24h :=
                  Trending.nft_data_ n ?> Trending.floor_price_in_usd_24h_percentage_change |})
              (slice0 5 nfts)))
          ||| [] |} |}.

(** *** POST /entrypoints/defi-stats/invoke *)
Module DefiOut.
Record volume : Type := { total24h : string; change24h : string; change7d : string }.
Record protocol_row : Type := {
  name : js string;
  category : js string;
  tvl : string;
  row_change24h : string;
  row_change7d : string;
  chains : list string
}.
Record t : Type := { timestamp : string; dexVolume : volume; topProtocols : list protocol_row }.
End DefiOut.

(** The template [`${x?.toFixed(1)}%`]. *)
Definition percent (x : js Q) : string :=
  tpl (x ?> (fun q => val (toFixed (Num q) 1))) ++ "%".

Definition defi_stats (up : Upstream) : completion (Reply DefiOut.t) :=
  protocols <- fetchTopDeFi up ;;
  dexVolume <- fetchDexVolume up ;;
  Return {|
    run_id := randomUUID up;
    status := succeeded;
    output := {|
      DefiOut.timestamp := now up;
      DefiOut.dexVolume := {|
        DefiOut.total24h := billions (total24h dexVolume);
        DefiOut.change24h := percent (change24h dexVolume);
        DefiOut.change7d := percent (change7d dexVolume) |};
      DefiOut.topProtocols :=
        map (fun p => {|
               DefiOut.name := name p;
               DefiOut.category := category p;
               DefiOut.tvl := billions (tvl p);
               DefiOut.row_change24h := percent (tvlChange24h p);
               DefiOut.row_change7d := percent (tvlChange7d p);
               DefiOut.chains := chains p |})
            protocols |} |}.

(** *** POST /entrypoints/token-intel/invoke *)
Module IntelOut.
Record analysis : Type := { fromATH : string; momentum : string }.
Inductive t : Type :=
| found (timestamp : string) (token : TokenInfo) (analysis_ : analysis)
| problem (error : string) (suggestion : string).
End IntelOut.

Definition token_intel (up : Upstream) (req : Request) : completion (Reply IntelOut.t) :=
  let body := body_of req in
  body <- member body "input" ;;
  let input := input body ||| empty_input in
  let token := token input ||| "bitcoin" in
  try_catch
    (data <- fetchTokenInfo up (toLowerCase token) ;;
     Return {|
       run_id := randomUUID up;
       status := succeeded;
       output :=
         IntelOut.found (now up) data {|
           IntelOut.fromATH := percent (athChangePercentage data);
           IntelOut.momentum :=
             if gt (ToNumber (priceChange7d data)) (Num 0) then "bullish"
             else if lt (ToNumber (priceChange7d data)) (Num (-10)) then "bearish"
             else "neutral" |} |})
    (fun err =>
       Return {|
         run_id := randomUUID up;
         status := failed;
         output := IntelOut.problem (message err)
                     "Use CoinGecko token ID (e.g., bitcoin, ethereum)" |}).

(* ================================================================== *)
(** ** Conditions named by the specification *)

(** Rule 2 fires: the DEX 24h volume change is above 5 and the primary
    asset's 24h price change is below -2. *)
Definition divergence (topCoins : js (list Market.coin)) (dexVolume : js DexVolume) : Prop :=
  exists v p, dexChange dexVolume = val v /\ primaryChange topCoins = val p
              /\ (5 < v)%Q /\ (p < -2)%Q.

(** A trending asset qualifies for rule 3: its 24h price change is above 10. *)
Definition qualifies (coin : Trending.coin) : Prop :=
  exists q, priceChange_of coin = val q /\ (10 < q)%Q.

Definition qualifiesb (coin : Trending.coin) : bool :=
  match priceChange_of coin with
  | val q => Qltb 10 q
  | _ => false
  end.

(** The sort key of the comparator of [fetchTopDeFi]: [p.tvl || 0]. *)
Definition tvl_key (p : Llama.protocol) : Q := Llama.tvl p ||| 0%Q.

(** [a] may stand before [b] in descending order of that key. *)
Definition tvl_desc (a b : Llama.protocol) : Prop := (tvl_key b <= tvl_key a)%Q.

(** A value is absent when reading it gives [undefined] or [null]. *)
Definition absent {A} (x : js A) : Prop := x = undefined \/ x = null.

(** The first sentiment reading's score and class, as every reader of
    the sentiment payload reaches them: [fearGreed?.data?.[0]?.value]. *)
Definition first_value (fearGreed : js Fng.payload) : js string :=
  fearGreed ?> Fng.data ?> at_index 0 ?> Fng.value.
Definition first_class (fearGreed : js Fng.payload) : js string :=
  fearGreed ?> Fng.data ?> at_index 0 ?> Fng.value_classification.

(** A computation that throws, or a promise that rejects. *)
Definition rejects {A} (c : completion A) : Prop := exists e, c = Throw e.

(** The body of the request can be read: it is not [null]. *)
Definition readable (req : Request) : Prop := exists b, body_of req = val b.

(** The [input] object of a request, [{}] when there is none. *)
Definition input_of (req : Request) : Input := body_of req ?> input ||| empty_input.

(** The source selection the digest works with. *)
Definition selected_sources (req : Request) : list string :=
  sources (input_of req) ||| ["coingecko"; "defillama"; "feargreed"].

(** The [token] field of a request, [undefined] when there is none. *)
Definition requested_token (req : Request) : js string :=
  body_of req ?> input ?> token.


(** The lookup id as the specification words it: the lowercased token
    when one is supplied and non-empty, ["bitcoin"] otherwise. *)
Definition effective_id (req : Request) : string :=
  match requested_token req with
  | val t => if String.eqb t "" then "bitcoin" else toLowerCase t
  | _ => "bitcoin"
  end.

(* ================================================================== *)
(** ** Sample payloads and requests *)

Definition reading (v c : js string) : Fng.payload :=
  {| Fng.data := val [ {| Fng.value := v; Fng.value_classification := c;
                          Fng.timestamp := val "1700000000" |} ] |}.

Definition trending_coin (n : string) (q : Q) : Trending.coin :=
  {| Trending.item_ := val {|
       Trending.symbol := val n; Trending.name := val n; Trending.market_cap_rank := val 3;
       Trending.data := val {|
         Trending.price := undefined; Trending.market_cap := undefined;
         Trending.price_change_percentage_24h := val {| Trending.usd := val q |} |} |} |}.

Definition trending_five : Trending.payload :=
  {| Trending.coins := val [trending_coin "a" 12; trending_coin "b" 8; trending_coin "c" 15;
                            trending_coin "d" 20; trending_coin "e" 5];
     Trending.nfts := undefined |}.

Definition market_row (p c : Q) : Market.coin :=
  {| Market.current_price := val p; Market.price_change_percentage_24h := val c |}.

Definition dex_summary (c : Q) : DexVolume :=
  {| total24h := val (inject_Z 4200000000); change24h := val c;
     change7d := undefined; totalAllTime := undefined |}.

Definition llama_protocol (n : string) (t : js Q) (c7 : Q) : Llama.protocol :=
  {| Llama.name := val n; Llama.category := val "Dexes"; Llama.tvl := t;
     Llama.change_1d := undefined; Llama.change_7d := val c7;
     Llama.chains := val ["Ethereum"]; Llama.url := undefined |}.

Definition llama_list : list Llama.protocol :=
  [ llama_protocol "small" (val 5%Q) 1; llama_protocol "dead" (val 0%Q) 50;
    llama_protocol "big" (val 900%Q) 12; llama_protocol "none" null 3;
    llama_protocol "mid" (val 70%Q) 2 ].

Definition answered {A} (payload : A) : completion (Response A) :=
  Return {| ok := true; json := Return payload |}.

Definition no_detail : Gecko.detail :=
  {| Gecko.id := undefined; Gecko.symbol := undefined; Gecko.name := undefined;
     Gecko.market_data_ := undefined; Gecko.market_cap_rank := undefined;
     Gecko.categories := undefined; Gecko.description_ := undefined |}.

Definition bitcoin_detail : Gecko.detail :=
  {| Gecko.id := val "bitcoin"; Gecko.symbol := val "btc"; Gecko.name := val "Bitcoin";
     Gecko.market_data_ := undefined; Gecko.market_cap_rank := val 1;
     Gecko.categories := val ["Cryptocurrency"]; Gecko.description_ := undefined |}.

(** Every source answers; the only asset the detail feed knows is bitcoin. *)
Definition healthy : Upstream :=
  {| fng := answered (reading (val "12") (val "Extreme Fear"));
     search_trending := answered trending_five;
     coins_markets := answered [market_row 60000 (-3); market_row 3000 1];
     protocols := answered llama_list;
     overview_dexs := answered {| Llama.total24h := val (inject_Z 4200000000);
                                  Llama.dex_change_1d := val 6%Q;
                                  Llama.dex_change_7d := undefined;
                                  Llama.totalAllTime := undefined |};
     coins := fun tokenId =>
                if String.eqb tokenId "bitcoin" then answered bitcoin_detail
                else Return {| ok := false; json := Return no_detail |};
     randomUUID := "00000000-0000-4000-8000-000000000000";
     now := "2026-02-09T08:40:55.000Z" |}.

(** The same, with the sentiment index unreachable. *)
Definition sentiment_down : Upstream :=
  {| fng := Throw (TypeError "fetch failed");
     search_trending := search_trending healthy;
     coins_markets := coins_markets healthy;
     protocols := protocols healthy;
     overview_dexs := overview_dexs healthy;
     coins := coins healthy;
     randomUUID := randomUUID healthy;
     now := now healthy |}.

(** The same, with a sentiment payload that has no readings. *)
Definition sentiment_empty : Upstream :=
  {| fng := answered {| Fng.data := val [] |};
     search_trending := search_trending healthy;
     coins_markets := coins_markets healthy;
     protocols := protocols healthy;
     overview_dexs := overview_dexs healthy;
     coins := coins healthy;
     randomUUID := randomUUID healthy;
     now := now healthy |}.

(** The same, with a detail feed that answers every id with bitcoin. *)
Definition bitcoin_only : Upstream :=
  {| fng := fng healthy;
     search_trending := search_trending healthy;
     coins_markets := coins_markets healthy;
     protocols := protocols healthy;
     overview_dexs := overview_dexs healthy;
     coins := fun _ => answered bitcoin_detail;
     randomUUID := randomUUID healthy;
     now := now healthy |}.

Definition request_sources (l : list string) : Request :=
  Return (val {| input := val {| sources := val l; token := undefined |} |}).

Definition request_token (t : string) : Request :=
  Return (val {| input := val {| sources := undefined; token := val t |} |}).

(** The body [{}]. *)
Definition request_empty : Request := Return (val {| input := undefined |}).

(** The body [null]. *)
Definition request_null : Request := Return null.

(* ================================================================== *)
(** ** The entrypoints of the earlier agent file

    The earlier version of the agent registers its handlers with
    [addEntrypoint]; the input has passed the zod schema, so [sources] is
    a list (the schema default filled in) and [token] a string, and the
    handler returns the [output] alone. *)
Module Legacy.

Definition default_sources : list string := ["coingecko"; "defillama"; "feargreed"].

(** The members of [z.enum(['coingecko', 'defillama', 'feargreed'])]. *)
Definition is_source (x : string) : bool :=
  String.eqb x "coingecko" || String.eqb x "defillama" || String.eqb x "feargreed".

(** [SourcesSchema]: [sources] is an optional array of source names,
    with a default.  The argument is [None] for an input without the
    field; the result is [None] when validation fails (a name outside the
    enumeration), and the handler is then not run. *)
Definition SourcesSchema (sources : option (list string)) : option (list string) :=
  match sources with
  | Some l => if forallb is_source l then Some l else None
  | None => Some default_sources
  end.

Definition daily_alpha (up : Upstream) (sources : list string) : completion Digest.t :=
  fearGreed <- when_selected (array_includes sources "feargreed") (fetchFearGreed up) ;;
  trending <- when_selected (array_includes sources "coingecko") (fetchTrending up) ;;
  topCoins <- when_selected (array_includes sources "coingecko") (fetchTopCoins up) ;;
  defi <- when_selected (array_includes sources "defillama") (fetchTopDeFi up) ;;
  dexVolume <- when_selected (array_includes sources "defillama") (fetchDexVolume up) ;;
  signals <- buildAlphaSignals fearGreed trending topCoins defi dexVolume ;;
  let first := fearGreed ?> Fng.data ?> at_index 0 in
  Return {|
    Digest.timestamp := now up;
    Digest.summary :=
      if (0 <? List.length signals)%nat
      then show_nat (List.length signals) ++ " alpha signals detected"
      else "No strong signals - market neutral";
    Digest.marketContext := {|
      Digest.fearGreedIndex := parseInt (first ?> Fng.value ||| "50");
      Digest.fearGreedClass := first ?> Fng.value_classification ||| "Unknown";
      Digest.btcPrice := topCoins ?> at_index 0 ?> Market.current_price;
      Digest.btcChange24h := topCoins ?> at_index 0 ?> Market.price_change_percentage_24h;
      Digest.ethPrice := topCoins ?> at_index 1 ?> Market.current_price;
      Digest.ethChange24h := topCoins ?> at_index 1 ?> Market.price_change_percentage_24h;
      Digest.dexVolume24h := dexVolume ?> total24h;
      Digest.dexVolumeChange := dexVolume ?> change24h |};
    Digest.signals := signals;
    Digest.trending :=
      trending ?> Trending.coins
        ?> (fun coins => val (map (fun c => {|
              Digest.symbol := Trending.item_ c ?> Trending.symbol ?> (fun s => val (toUpperCase s));
              Digest.name := Trending.item_ c ?> Trending.name;
              Digest.rank := Trending.item_ c ?> Trending.market_cap_rank |})
            (slice0 5 coins)))
        ||| [];
    Digest.topDeFi :=
      defi ?> (fun d => val (map (fun p => {|
              Digest.defi_name := name p;
              Digest.tvl := billions (tvl p);
              Digest.category := category p |})
            (slice0 5 d)))
        ||| [];
    Digest.disclaimer := "Not financial advice. DYOR." |}.

Definition token_intel (up : Upstream) (token : string) : completion IntelOut.t :=
  try_catch
    (data <- fetchTokenInfo up (toLowerCase token) ;;
     Return (IntelOut.found (now up) data {|
       IntelOut.fromATH := percent (athChangePercentage data);
       IntelOut.momentum :=
         if gt (ToNumber (priceChange7d data)) (Num 0) then "bullish"
         else if lt (ToNumber (priceChange7d data)) (Num (-10)) then "bearish"
         else "neutral" |}))
    (fun err =>
       Return (IntelOut.problem (message err)
                 "Use CoinGecko token ID (e.g., bitcoin, ethereum)")).

End Legacy.

(* ================================================================== *)
(** ** Further conditions on inputs and outcomes *)

(** A computation that returns, or a promise that resolves. *)
Definition returns {A} (c : completion A) : Prop := exists a, c = Return a.

(** A protocol qualifies for rule 4: its 7-day TVL change is above 10. *)
Definition grows (p : DeFiProtocol) : Prop :=
  exists c, tvlChange7d p = val c /\ (10 < c)%Q.

Definition growsb (p : DeFiProtocol) : bool :=
  match tvlChange7d p with
  | val c => Qltb 10 c
  | _ => false
  end.

(** The record [fetchTopDeFi] maps one raw protocol to. *)
Definition normalize_protocol (p : Llama.protocol) : DeFiProtocol :=
  {| name := Llama.name p;
     category := Llama.category p;
     tvl := Llama.tvl p;
     tvlChange24h := Llama.change_1d p;
     tvlChange7d := Llama.change_7d p;
     chains := Llama.chains p ?> (fun c => val (slice0 5 c)) ||| [];
     url := Llama.url p |}.

(** The filter of [fetchTopDeFi]: [p.tvl > 0]. *)
Definition positive_tvl (p : Llama.protocol) : bool :=
  gt (ToNumber (Llama.tvl p)) (Num 0).

(** The timestamp of a reading denotes a date [toISOString] can print. *)
Definition valid_timestamp (d : Fng.entry) : Prop :=
  exists n, parseInt_js (Fng.timestamp d) = Some n
            /\ Z.abs (n * 1000) <= 8640000000000000.

(** Every source call the digest makes for the selection [sel] returns,
    and the selection includes 'defillama'. *)
Definition digest_calls_return (up : Upstream) (sel : list string) : Prop :=
  (array_includes sel "feargreed" = true -> returns (fetchFearGreed up)) /\
  (array_includes sel "coingecko" = true ->
     returns (fetchTrending up) /\ returns (fetchTopCoins up)) /\
  array_includes sel "defillama" = true /\
  returns (fetchTopDeFi up) /\ returns (fetchDexVolume up).

(** The output object the digest handlers build from what the five
    source calls and the engine gave. *)
Definition digest_output (up : Upstream)
    (fearGreed : js Fng.payload) (trending_ : js Trending.payload)
    (topCoins : js (list Market.coin)) (defi : js (list DeFiProtocol))
    (dexVolume : js DexVolume) (signals : list AlphaSignal) : Digest.t :=
  let first := fearGreed ?> Fng.data ?> at_index 0 in
  {| Digest.timestamp := now up;
     Digest.summary :=
       if (0 <? List.length signals)%nat
       then show_nat (List.length signals) ++ " alpha signals detected"
       else "No strong signals - market neutral";
     Digest.marketContext := {|
       Digest.fearGreedIndex := parseInt (first ?> Fng.value ||| "50");
       Digest.fearGreedClass := first ?> Fng.value_classification ||| "Unknown";
       Digest.btcPrice := topCoins ?> at_index 0 ?> Market.current_price;
       Digest.btcChange24h := topCoins ?> at_index 0 ?> Market.price_change_percentage_24h;
       Digest.ethPrice := topCoins ?> at_index 1 ?> Market.current_price;
       Digest.ethChange24h := topCoins ?> at_index 1 ?> Market.price_change_percentage_24h;
       Digest.dexVolume24h := dexVolume ?> total24h;
       Digest.dexVolumeChange := dexVolume ?> change24h |};
     Digest.signals := signals;
     Digest.trending :=
       trending_ ?> Trending.coins
         ?> (fun coins => val (map (fun c => {|
               Digest.symbol := Trending.item_ c ?> Trending.symbol ?> (fun s => val (toUpperCase s));
               Digest.name := Trending.item_ c ?> Trending.name;
               Digest.rank := Trending.item_ c ?> Trending.market_cap_rank |})
             (slice0 5 coins)))
         ||| [];
     Digest.topDeFi :=
       defi ?> (fun d => val (map (fun p => {|
               Digest.defi_name := name p;
               Digest.tvl := billions (tvl p);
               Digest.category := category p |})
             (slice0 5 d)))
         ||| [];
     Digest.disclaimer := "Not financial advice. DYOR." |}.

(** The detail lookup for [tokenId] succeeds: the fetch resolves with a
    success status and a JSON body. *)
Definition lookup_found (up : Upstream) (tokenId : string) : Prop :=
  exists r d, coins up tokenId = Return r /\ ok r = true /\ json r = Return d.

Definition defi_entry (n : string) (t c7 : Q) : DeFiProtocol :=
  {| name := val n; category := val "Lending"; tvl := val t;
     tvlChange24h := undefined; tvlChange7d := val c7; chains := ["Ethereum"];
     url := undefined |}.

Definition defi_four : list DeFiProtocol :=
  [defi_entry "a" 900 12; defi_entry "b" 800 3; defi_entry "c" 700 15; defi_entry "d" 600 20].

(** The sentiment payload with its reading's timestamp missing. *)
Definition sentiment_undated : Upstream :=
  {| fng := answered {| Fng.data := val [ {| Fng.value := val "40";
                                             Fng.value_classification := val "Fear";
                                             Fng.timestamp := undefined |} ] |};
     search_trending := search_trending healthy;
     coins_markets := coins_markets healthy;
     protocols := protocols healthy;
     overview_dexs := overview_dexs healthy;
     coins := coins healthy;
     randomUUID := randomUUID healthy;
     now := now healthy |}.

(** Every feed down except the DeFi ones. *)
Definition only_llama : Upstream :=
  {| fng := Throw (TypeError "fetch failed");
     search_trending := Throw (TypeError "fetch failed");
     coins_markets := Throw (TypeError "fetch failed");
     protocols := protocols healthy;
     overview_dexs := overview_dexs healthy;
     coins := fun _ => Throw (TypeError "fetch failed");
     randomUUID := randomUUID healthy;
     now := now healthy |}.

(* ================================================================== *)
(** * Properties of the signal engine *)

Local Open Scope list_scope.

Section Engine.

Lemma for_of_appends {A B} (body : list B -> A -> completion (list B)) (g : A -> list B) :
  (forall s x, body s x = Return (s ++ g x)) ->
  forall l s, for_of l s body = Return (s ++ flat_map g l).
Proof.
  intros Hbody l. induction l as [|x l IH]; intros s; simpl.
  - now rewrite app_nil_r.
  - rewrite Hbody. simpl. rewrite IH. now rewrite <- app_assoc.
Qed.

(** A comparison [x > k] against a non-negative constant succeeds only
    on an actual number: [undefined] is NaN and [null] is 0. *)
Lemma gt_val (x : js Q) (k : Q) :
  (0 <= k)%Q ->
  gt (ToNumber x) (Num k) = match x with val q => Qltb k q | _ => false end.
Proof.
  intros Hk. destruct x as [| |q]; simpl; try reflexivity.
  unfold Qltb. apply Qle_bool_iff in Hk. now rewrite Hk.
Qed.

(** Likewise [x < k] against a negative constant. *)
Lemma lt_val (x : js Q) (k : Q) :
  (k <= 0)%Q ->
  lt (ToNumber x) (Num k) = match x with val q => Qltb q k | _ => false end.
Proof.
  intros Hk. destruct x as [| |q]; simpl; try reflexivity.
  unfold Qltb. apply Qle_bool_iff in Hk. now rewrite Hk.
Qed.

Variables (fearGreed : js Fng.payload) (trending_ : js Trending.payload)
          (topCoins : js (list Market.coin)) (dexVolume : js DexVolume).

(** The engine reads [defi.slice] with a plain member access after the
    first three blocks have run; past it, the array it returns is the
    output of the four rules in their order. *)
Lemma buildAlphaSignals_eq (defi : js (list DeFiProtocol)) :
  buildAlphaSignals fearGreed trending_ topCoins defi dexVolume
  = (d <- member defi "slice" ;;
     Return (sentiment_rule fearGreed
             ++ whale_rule topCoins dexVolume
             ++ flat_map narrative_rule (slice0 3 (trendingCoins_of trending_))
             ++ flat_map protocol_rule (slice0 3 d))).
Proof.
  unfold buildAlphaSignals. cbv zeta.
  match goal with
  | |- bind (if _ then _ else Return ?S) _ = _ =>
      replace S with (sentiment_rule fearGreed)
        by (unfold sentiment_rule, fgClass_of, push;
            destruct (le_int _ 25); [reflexivity|]; destruct (ge_int _ 75); reflexivity)
  end.
  generalize (sentiment_rule fearGreed) as S1. intros S1.
  match goal with
  | |- bind ?c _ = _ => assert (HW : c = Return (S1 ++ whale_rule topCoins dexVolume))
  end.
  { unfold whale_rule, dexChange, primaryChange, push.
    rewrite gt_val, lt_val by (unfold Qle; simpl; lia).
    destruct (dexVolume ?> change24h) as [| |v] eqn:Ev; cbn [andb];
      try (now rewrite app_nil_r).
    destruct (topCoins ?> at_index 0 ?> Market.price_change_percentage_24h) as [| |p];
      rewrite ?andb_false_r, ?app_nil_r; try reflexivity.
    destruct (Qltb 5 v && Qltb p (-2)); [|now rewrite app_nil_r].
    destruct dexVolume as [| |dv]; try discriminate. cbn [member bind chain] in Ev |- *.
    now rewrite Ev. }
  rewrite HW. cbn [bind].
  rewrite (for_of_appends _ narrative_rule).
  2:{ intros s x. unfold narrative_rule, priceChange_of, push.
      rewrite gt_val by (unfold Qle; simpl; lia).
      destruct (Trending.item_ x ?> Trending.data ?> Trending.price_change_percentage_24h
                  ?> Trending.usd) as [| |pc]; rewrite ?app_nil_r; try reflexivity.
      destruct (Qltb 10 pc); cbn [member bind]; now rewrite ?app_nil_r. }
  cbn [bind]. destruct defi as [| |d]; cbn [member bind]; try reflexivity.
  rewrite (for_of_appends _ protocol_rule).
  2:{ intros s x. unfold protocol_rule, push.
      rewrite gt_val by (unfold Qle; simpl; lia).
      destruct (tvlChange7d x) as [| |c]; rewrite ?app_nil_r; try reflexivity.
      destruct (Qltb 10 c); cbn [member bind]; now rewrite ?app_nil_r. }
  cbn [bind]. unfold trendingCoins_of. now rewrite <- !app_assoc.
Qed.

Lemma buildAlphaSignals_array (defi : list DeFiProtocol) :
  buildAlphaSignals fearGreed trending_ topCoins (val defi) dexVolume
  = Return (sentiment_rule fearGreed
            ++ whale_rule topCoins dexVolume
            ++ flat_map narrative_rule (slice0 3 (trendingCoins_of trending_))
            ++ flat_map protocol_rule (slice0 3 defi)).
Proof. now rewrite buildAlphaSignals_eq. Qed.

(** *** Kinds of the signals each rule pushes *)

Lemma of_type_app t l1 l2 : of_type t (l1 ++ l2) = of_type t l1 ++ of_type t l2.
Proof. apply filter_app. Qed.

Lemma of_type_same t l : Forall (fun s => type s = t) l -> of_type t l = l.
Proof.
  induction 1 as [|x l Hx _ IH]; simpl; [reflexivity|].
  rewrite Hx, IH. now destruct t.
Qed.

Lemma of_type_other t t' l :
  t' <> t -> Forall (fun s => type s = t') l -> of_type t l = [].
Proof.
  intros Hne. induction 1 as [|x l Hx _ IH]; simpl; [reflexivity|].
  rewrite Hx, IH. destruct t, t'; simpl; congruence.
Qed.

Lemma Forall_flat_map {A B} (P : B -> Prop) (f : A -> list B) l :
  (forall x, Forall P (f x)) -> Forall P (flat_map f l).
Proof.
  intros H. induction l; simpl; [constructor|]. apply Forall_app. auto.
Qed.

Lemma length_flat_map_le {A B} (f : A -> list B) l :
  (forall x, (List.length (f x) <= 1)%nat) ->
  (List.length (flat_map f l) <= List.length l)%nat.
Proof.
  intros H. induction l as [|x l IH]; simpl; [lia|].
  rewrite length_app. specialize (H x). lia.
Qed.

Lemma sentiment_rule_type : Forall (fun s => type s = sentiment) (sentiment_rule fearGreed).
Proof.
  unfold sentiment_rule. destruct (le_int _ 25); [repeat constructor|].
  destruct (ge_int _ 75); repeat constructor.
Qed.

Lemma whale_rule_type : Forall (fun s => type s = whale) (whale_rule topCoins dexVolume).
Proof.
  unfold whale_rule. destruct (dexChange _); try constructor.
  destruct (primaryChange _); try constructor.
  destruct (_ && _); repeat constructor.
Qed.

Lemma narrative_rule_type coin : Forall (fun s => type s = narrative) (narrative_rule coin).
Proof.
  unfold narrative_rule. destruct (priceChange_of _); try constructor.
  destruct (Qltb _ _); repeat constructor.
Qed.

Lemma protocol_rule_type p : Forall (fun s => type s = protocol) (protocol_rule p).
Proof.
  unfold protocol_rule. destruct (tvlChange7d _); try constructor.
  destruct (Qltb _ _); repeat constructor.
Qed.

(** The signals of kind [t] in the engine's output, rule by rule. *)
Lemma of_type_rules t (defi : list DeFiProtocol) :
  of_type t (sentiment_rule fearGreed
             ++ whale_rule topCoins dexVolume
             ++ flat_map narrative_rule (slice0 3 (trendingCoins_of trending_))
             ++ flat_map protocol_rule (slice0 3 defi))
  = match t with
    | sentiment => sentiment_rule fearGreed
    | whale => whale_rule topCoins dexVolume
    | narrative => flat_map narrative_rule (slice0 3 (trendingCoins_of trending_))
    | protocol => flat_map protocol_rule (slice0 3 defi)
    end.
Proof.
  pose proof sentiment_rule_type as HS.
  pose proof whale_rule_type as HW.
  pose proof (Forall_flat_map _ narrative_rule (slice0 3 (trendingCoins_of trending_))
                narrative_rule_type) as HN.
  pose proof (Forall_flat_map _ protocol_rule (slice0 3 defi) protocol_rule_type) as HP.
  rewrite !of_type_app.
  destruct t;
    repeat match goal with
    | H : Forall (fun s => type s = ?k) ?l |- context [of_type ?t ?l] =>
        first [ rewrite (of_type_same t l H)
              | rewrite (of_type_other t k l) by first [discriminate | exact H] ]
    end;
    now rewrite ?app_nil_r.
Qed.

Lemma append_empty_r (t : string) : (t ++ "")%string = t.
Proof. induction t; simpl; [reflexivity|now f_equal]. Qed.

Lemma append_assoc (a b c : string) : ((a ++ b) ++ c)%string = (a ++ b ++ c)%string.
Proof. induction a; simpl; [reflexivity|now f_equal]. Qed.

Lemma includes_suffix (pre t : string) : includes (pre ++ t)%string t.
Proof. exists pre, ""%string. now rewrite append_empty_r. Qed.

End Engine.

Lemma Qltb_lt (x y : Q) : Qltb x y = true <-> (x < y)%Q.
Proof.
  unfold Qltb. rewrite negb_true_iff. split; intros H.
  - apply Qnot_le_lt. intros Hle. apply Qle_bool_iff in Hle. congruence.
  - destruct (Qle_bool y x) eqn:E; [|reflexivity].
    apply Qle_bool_iff in E. exfalso. exact (Qlt_not_le _ _ H E).
Qed.

Lemma qualifiesb_iff coin : qualifiesb coin = true <-> qualifies coin.
Proof.
  unfold qualifiesb, qualifies. split.
  - destruct (priceChange_of coin) as [| |q]; try discriminate.
    intros H. exists q. split; [reflexivity|]. now apply Qltb_lt.
  - intros (q & -> & H). now apply Qltb_lt.
Qed.

(** C3. Whenever the engine returns (the DeFi list is an array), a
    sentiment score [s <= 25] gives exactly one sentiment signal, titled
    "... Buy Zone", of confidence high when [s <= 15] and medium
    otherwise; a score [s >= 75] gives exactly one, titled
    "... Caution Zone", high when [s >= 85] and medium otherwise; a score
    strictly between 25 and 75 gives none. *)
Theorem C3_sentiment_thresholds (fearGreed : js Fng.payload) (trending_ : js Trending.payload)
    (topCoins : js (list Market.coin)) (defi : list DeFiProtocol) (dexVolume : js DexVolume) (s : Z) :
  fgValue_of fearGreed = Some s ->
  exists signals,
    buildAlphaSignals fearGreed trending_ topCoins (val defi) dexVolume = Return signals /\
    (s <= 25 ->
       exists sig, of_type sentiment signals = [sig]
                   /\ includes (title sig) "Buy Zone"
                   /\ (s <= 15 -> confidence sig = high)
                   /\ (15 < s -> confidence sig = medium)) /\
    (75 <= s ->
       exists sig, of_type sentiment signals = [sig]
                   /\ includes (title sig) "Caution Zone"
                   /\ (85 <= s -> confidence sig = high)
                   /\ (s < 85 -> confidence sig = medium)) /\
    (25 < s < 75 -> of_type sentiment signals = []).
Proof.
  intros Hs. eexists. split; [apply buildAlphaSignals_array|].
  rewrite of_type_rules. unfold sentiment_rule. rewrite Hs. cbn [le_int ge_int].
  repeat split.
  - intros H. apply Z.leb_le in H. rewrite H. eexists. split; [reflexivity|].
    cbn [title confidence]. split; [|split].
    + rewrite <- !append_assoc.
      change ") - Potential Buy Zone"%string with (") - Potential " ++ "Buy Zone")%string.
      rewrite <- append_assoc. apply includes_suffix.
    + intros H'. apply Z.leb_le in H'. now rewrite H'.
    + intros H'. apply Z.leb_gt in H'. now rewrite H'.
  - intros H. assert ((s <=? 25) = false) as -> by (apply Z.leb_gt; lia).
    assert ((s >=? 75) = true) as -> by (apply Z.geb_le; lia).
    eexists. split; [reflexivity|]. cbn [title confidence]. split; [|split].
    + rewrite <- !append_assoc.
      change ") - Caution Zone"%string with (") - " ++ "Caution Zone")%string.
      rewrite <- append_assoc. apply includes_suffix.
    + intros H'. assert ((s >=? 85) = true) as -> by (apply Z.geb_le; lia). reflexivity.
    + intros H'. assert ((s >=? 85) = false) as -> by (rewrite Z.geb_leb; apply Z.leb_gt; lia).
      reflexivity.
  - intros [H1 H2]. assert ((s <=? 25) = false) as -> by (apply Z.leb_gt; lia).
    assert ((s >=? 75) = false) as -> by (rewrite Z.geb_leb; apply Z.leb_gt; lia).
    reflexivity.
Qed.

(** C4. Whenever the engine returns, it holds exactly one whale signal,
    of confidence medium, when the DEX 24h volume change is above 5 and
    the primary asset's 24h price change is below -2, and no whale signal
    otherwise (a failed condition or an absent input). *)
Theorem C4_whale_divergence (fearGreed : js Fng.payload) (trending_ : js Trending.payload)
    (topCoins : js (list Market.coin)) (defi : list DeFiProtocol) (dexVolume : js DexVolume) :
  exists signals,
    buildAlphaSignals fearGreed trending_ topCoins (val defi) dexVolume = Return signals /\
    (divergence topCoins dexVolume ->
       exists sig, of_type whale signals = [sig] /\ confidence sig = medium) /\
    (~ divergence topCoins dexVolume -> of_type whale signals = []).
Proof.
  eexists. split; [apply buildAlphaSignals_array|].
  rewrite of_type_rules. unfold whale_rule, divergence. split.
  - intros (v & p & -> & -> & Hv & Hp).
    apply Qltb_lt in Hv, Hp. rewrite Hv, Hp. cbn [andb].
    eexists. split; reflexivity.
  - intros Hn. destruct (dexChange dexVolume) as [| |v]; try reflexivity.
    destruct (primaryChange topCoins) as [| |p]; try reflexivity.
    destruct (Qltb 5 v) eqn:Ev; [|reflexivity].
    destruct (Qltb p (-2)) eqn:Ep; [|reflexivity].
    exfalso. apply Hn. exists v, p. repeat split; now apply Qltb_lt.
Qed.

Lemma flat_map_narrative_rule l :
  Forall2 (fun coin sig => exists q, priceChange_of coin = val q /\ (10 < q)%Q
                                     /\ sig = narrative_signal coin q)
          (filter qualifiesb l) (flat_map narrative_rule l).
Proof.
  induction l as [|c l IH]; simpl; [constructor|].
  unfold qualifiesb at 1, narrative_rule at 1.
  destruct (priceChange_of c) as [| |q] eqn:E; simpl; try exact IH.
  destruct (Qltb 10 q) eqn:Eq; simpl; [|exact IH].
  constructor; [|exact IH]. exists q. repeat split; [exact E|now apply Qltb_lt].
Qed.

(** C5. Whenever the engine returns, its narrative signals are, in
    order, one signal of confidence medium for each of the first three
    trending assets whose 24h price change is above 10, and nothing else;
    what stands at index 3 or beyond has no effect on the result. *)
Theorem C5_narrative_first_three (fearGreed : js Fng.payload) (trending_ : js Trending.payload)
    (topCoins : js (list Market.coin)) (defi : list DeFiProtocol) (dexVolume : js DexVolume) :
  exists signals,
    buildAlphaSignals fearGreed trending_ topCoins (val defi) dexVolume = Return signals /\
    Forall2 (fun coin sig =>
               qualifies coin /\ type sig = narrative /\ confidence sig = medium
               /\ exists q, priceChange_of coin = val q /\ sig = narrative_signal coin q)
            (filter qualifiesb (firstn 3 (trendingCoins_of trending_)))
            (of_type narrative signals) /\
    (forall trending' : js Trending.payload,
        firstn 3 (trendingCoins_of trending') = firstn 3 (trendingCoins_of trending_) ->
        buildAlphaSignals fearGreed trending' topCoins (val defi) dexVolume = Return signals).
Proof.
  eexists. split; [apply buildAlphaSignals_array|]. split.
  - rewrite of_type_rules. unfold slice0.
    eapply Forall2_impl; [|apply flat_map_narrative_rule].
    intros c sig (q & E & Hq & ->). repeat split.
    + now exists q.
    + now exists q.
  - intros trending' H.
    rewrite buildAlphaSignals_array. unfold slice0. now rewrite H.
Qed.

(** C6. Whenever the engine returns, the returned list is a block of at
    most one sentiment signal, then a block of at most one whale signal,
    then at most three narrative signals, then at most three protocol
    signals. *)
Theorem C6_signal_order_and_caps
    (fearGreed : js Fng.payload) (trending_ : js Trending.payload)
    (topCoins : js (list Market.coin)) (defi : list DeFiProtocol) (dexVolume : js DexVolume) :
  exists s w n p,
    buildAlphaSignals fearGreed trending_ topCoins (val defi) dexVolume
    = Return (s ++ w ++ n ++ p) /\
    ((List.length s <= 1)%nat /\ Forall (fun x => type x = sentiment) s) /\
    ((List.length w <= 1)%nat /\ Forall (fun x => type x = whale) w) /\
    ((List.length n <= 3)%nat /\ Forall (fun x => type x = narrative) n) /\
    ((List.length p <= 3)%nat /\ Forall (fun x => type x = protocol) p).
Proof.
  exists (sentiment_rule fearGreed), (whale_rule topCoins dexVolume),
    (flat_map narrative_rule (slice0 3 (trendingCoins_of trending_))),
    (flat_map protocol_rule (slice0 3 defi)).
  split; [apply buildAlphaSignals_array|].
  repeat split.
  - unfold sentiment_rule. destruct (le_int _ 25); [simpl; lia|].
    destruct (ge_int _ 75); simpl; lia.
  - apply sentiment_rule_type.
  - unfold whale_rule. destruct (dexChange _); simpl; try lia.
    destruct (primaryChange _); simpl; try lia.
    destruct (_ && _); simpl; lia.
  - apply whale_rule_type.
  - etransitivity; [apply length_flat_map_le|apply firstn_le_length].
    intros x. unfold narrative_rule. destruct (priceChange_of x); simpl; try lia.
    destruct (Qltb _ _); simpl; lia.
  - apply Forall_flat_map, narrative_rule_type.
  - etransitivity; [apply length_flat_map_le|apply firstn_le_length].
    intros x. unfold protocol_rule. destruct (tvlChange7d x); simpl; try lia.
    destruct (Qltb _ _); simpl; lia.
  - apply Forall_flat_map, protocol_rule_type.
Qed.

(* ================================================================== *)
(** * Properties of the DeFi normalization *)

Lemma by_tvl_desc_gt a b :
  gt (by_tvl_desc a b) (Num 0) = true <-> (tvl_key a < tvl_key b)%Q.
Proof.
  unfold by_tvl_desc, gt, lt, sub. fold (tvl_key a) (tvl_key b).
  rewrite Qltb_lt. symmetry. apply Qlt_minus_iff.
Qed.

Lemma sort_insert_In {A} (cmp : A -> A -> number) x y l :
  In y (sort_insert cmp x l) <-> y = x \/ In y l.
Proof.
  induction l as [|z l IH]; cbn [sort_insert].
  - simpl. intuition congruence.
  - destruct (gt (cmp x z) (Num 0)); cbn [In]; rewrite ?IH; intuition (subst; auto).
Qed.

Lemma sort_In {A} (cmp : A -> A -> number) y l : In y (sort cmp l) <-> In y l.
Proof.
  induction l as [|x l IH]; simpl; [tauto|].
  rewrite sort_insert_In, IH. intuition congruence.
Qed.

Lemma sort_insert_sorted x l :
  Sorted tvl_desc l -> Sorted tvl_desc (sort_insert by_tvl_desc x l).
Proof.
  induction 1 as [|y l Hl IH Hhd]; cbn [sort_insert].
  - repeat constructor.
  - destruct (gt (by_tvl_desc x y) (Num 0)) eqn:E.
    + apply by_tvl_desc_gt in E. constructor; [exact IH|].
      destruct l as [|z l]; cbn [sort_insert].
      * constructor. unfold tvl_desc. now apply Qlt_le_weak.
      * destruct (gt (by_tvl_desc x z) (Num 0)).
        -- constructor. now inversion Hhd.
        -- constructor. unfold tvl_desc. now apply Qlt_le_weak.
    + constructor; [now constructor|]. constructor. unfold tvl_desc.
      apply Qnot_lt_le. intros Hlt. apply by_tvl_desc_gt in Hlt. congruence.
Qed.

Lemma sort_sorted l : StronglySorted tvl_desc (sort by_tvl_desc l).
Proof.
  apply Sorted_StronglySorted.
  - intros a b c Hab Hbc. unfold tvl_desc in *. eapply Qle_trans; eassumption.
  - induction l as [|x l IH]; simpl; [constructor|]. now apply sort_insert_sorted.
Qed.

Lemma Forall_firstn {A} (P : A -> Prop) n l : Forall P l -> Forall P (firstn n l).
Proof.
  intros H. rewrite <- (firstn_skipn n l) in H. now apply Forall_app in H.
Qed.

Lemma StronglySorted_firstn {A} (R : A -> A -> Prop) n l :
  StronglySorted R l -> StronglySorted R (firstn n l).
Proof.
  intros H. revert n. induction H as [|x l Hl IH Hx]; intros [|n]; simpl;
    constructor; [apply IH|now apply Forall_firstn].
Qed.

(** What survives the filter has a strictly positive TVL, which is then
    its sort key. *)
Lemma filter_positive p :
  gt (ToNumber (Llama.tvl p)) (Num 0) = true ->
  exists q, Llama.tvl p = val q /\ (0 < q)%Q /\ tvl_key p = q.
Proof.
  rewrite gt_val by apply Qle_refl.
  destruct (Llama.tvl p) as [| |q] eqn:E; try discriminate.
  intros H. apply Qltb_lt in H. exists q. repeat split; [exact H|].
  unfold tvl_key, or_else, or_with. rewrite E. unfold truthy, Truthy_Q.
  destruct (Qeq_bool q 0) eqn:Eq; [|reflexivity].
  apply Qeq_bool_iff in Eq. rewrite Eq in H. now apply Qlt_irrefl in H.
Qed.

(** C7. The normalization keeps at most 10 entries, each with a strictly
    positive TVL, in descending order of TVL. *)
Theorem C7_top_defi_capped_positive_sorted (protocols : list Llama.protocol) :
  (List.length (topDeFi_of protocols) <= 10)%nat /\
  Forall (fun p => exists q, tvl p = val q /\ (0 < q)%Q) (topDeFi_of protocols) /\
  StronglySorted
    (fun a b => exists qa qb, tvl a = val qa /\ tvl b = val qb /\ (qb <= qa)%Q)
    (topDeFi_of protocols).
Proof.
  unfold topDeFi_of, slice0.
  set (kept := filter _ protocols).
  assert (Hpos : Forall (fun p => exists q, Llama.tvl p = val q /\ (0 < q)%Q /\ tvl_key p = q)
                        (firstn 10 (sort by_tvl_desc kept))).
  { apply Forall_firstn, Forall_forall. intros p Hp.
    apply sort_In in Hp. apply filter_In in Hp. now apply filter_positive. }
  pose proof (StronglySorted_firstn _ 10 _ (sort_sorted kept)) as Hsorted.
  split; [rewrite length_map; apply firstn_le_length|].
  revert Hpos Hsorted. generalize (firstn 10 (sort by_tvl_desc kept)) as l.
  intros l Hpos Hsorted. split.
  - apply Forall_map. eapply Forall_impl; [|exact Hpos].
    intros p (q & E & Hq & _). now exists q.
  - induction Hsorted as [|x l Hl IH Hx]; simpl; [constructor|].
    inversion Hpos as [|? ? Hposx Hpos']; subst.
    destruct Hposx as (qx & Ex & _ & Kx).
    constructor; [now apply IH|].
    apply Forall_map. rewrite Forall_forall in Hx, Hpos' |- *.
    intros y Hy. destruct (Hpos' y Hy) as (qy & Ey & _ & Ky).
    exists qx, qy. repeat split; [exact Ex|exact Ey|].
    specialize (Hx y Hy). unfold tvl_desc in Hx. now rewrite Kx, Ky in Hx.
Qed.



(* ================================================================== *)
(** * Properties of the route handlers *)


Lemma Return_inj {A} (a b : A) : Return a = Return b -> a = b.
Proof. now intros [= ->]. Qed.

(** The id the handler passes to [fetchTokenInfo] is the effective id. *)
Lemma lookup_id_effective (req : Request) (b : Body) :
  body_of req = val b ->
  toLowerCase (token (input b ||| empty_input) ||| "bitcoin") = effective_id req.
Proof.
  intros Hb. unfold effective_id, requested_token, or_else, or_with. rewrite Hb.
  cbn [chain].
  destruct (input b) as [| |i]; cbn; try reflexivity.
  destruct (token i) as [| |t]; cbn; try reflexivity.
  unfold truthy, Truthy_string. now destruct (String.eqb t "").
Qed.

(** The digest, as the read of [body.input] and the sequence of its
    awaits followed by the output. *)
Lemma daily_alpha_eq (up : Upstream) (req : Request) :
  daily_alpha up req
  = (_ <- member (body_of req) "input" ;;
     fearGreed <- when_selected (array_includes (selected_sources req) "feargreed")
                    (fetchFearGreed up) ;;
     trending_ <- when_selected (array_includes (selected_sources req) "coingecko")
                    (fetchTrending up) ;;
     topCoins <- when_selected (array_includes (selected_sources req) "coingecko")
                   (fetchTopCoins up) ;;
     defi <- when_selected (array_includes (selected_sources req) "defillama")
               (fetchTopDeFi up) ;;
     dexVolume <- when_selected (array_includes (selected_sources req) "defillama")
                    (fetchDexVolume up) ;;
     signals <- buildAlphaSignals fearGreed trending_ topCoins defi dexVolume ;;
     Return {| run_id := randomUUID up;
               status := succeeded;
               output := digest_output up fearGreed trending_ topCoins defi dexVolume
                           signals |}).
Proof.
  unfold daily_alpha, selected_sources, input_of. cbv zeta.
  destruct (body_of req) as [| |b]; reflexivity.
Qed.

(** The token lookup, as the read of [body.input] followed by the guarded
    lookup of the effective id. *)
Lemma token_intel_eq (up : Upstream) (req : Request) :
  token_intel up req
  = (_ <- member (body_of req) "input" ;;
     try_catch
       (data <- fetchTokenInfo up (effective_id req) ;;
        Return {|
          run_id := randomUUID up;
          status := succeeded;
          output :=
            IntelOut.found (now up) data {|
              IntelOut.fromATH := percent (athChangePercentage data);
              IntelOut.momentum :=
                if gt (ToNumber (priceChange7d data)) (Num 0) then "bullish"%string
                else if lt (ToNumber (priceChange7d data)) (Num (-10)) then "bearish"%string
                else "neutral"%string |} |})
       (fun err =>
          Return {|
            run_id := randomUUID up;
            status := failed;
            output := IntelOut.problem (message err)
                        "Use CoinGecko token ID (e.g., bitcoin, ethereum)" |})).
Proof.
  unfold token_intel. cbv zeta.
  destruct (body_of req) as [| |b] eqn:Hb; cbn [member bind]; try reflexivity.
  now rewrite (lookup_id_effective req b Hb).
Qed.

(** C1 (the code departs from it). With [null] for the DeFi list the
    engine does not return: after the first three blocks it reads
    [defi.slice] and throws a TypeError, whatever the other inputs are;
    this is what the digest runs into when 'defillama' is deselected,
    every selected source having answered. *)
Theorem C1_null_defi_throws :
  (forall (fearGreed : js Fng.payload) (trending_ : js Trending.payload)
          (topCoins : js (list Market.coin)) (dexVolume : js DexVolume),
      buildAlphaSignals fearGreed trending_ topCoins null dexVolume
      = Throw (TypeError "Cannot read properties of null (reading 'slice')")) /\
  daily_alpha healthy (request_sources ["feargreed"])
  = Throw (TypeError "Cannot read properties of null (reading 'slice')").
Proof.
  split.
  - intros. now rewrite buildAlphaSignals_eq.
  - vm_compute. reflexivity.
Qed.












(** C8. When the detail feed answers the lookup with a non-success
    status, the token-intel operation returns a reply (it does not throw)
    of status "failed" whose error names the id that was looked up (the
    supplied token itself when it is already in lower case) and whose
    suggestion points to the CoinGecko id format.  The body of the
    request is one the handler can read: with the body [null] no lookup
    is made. *)
Theorem C8_token_not_found_reply (up : Upstream) (req : Request) (r : Response Gecko.detail) :
  readable req ->
  coins up (effective_id req) = Return r ->
  ok r = false ->
  token_intel up req
  = Return {| run_id := randomUUID up;
              status := failed;
              output := IntelOut.problem
                          ("Token " ++ effective_id req ++ " not found")
                          "Use CoinGecko token ID (e.g., bitcoin, ethereum)" |} /\
  includes ("Token " ++ effective_id req ++ " not found") (effective_id req) /\
  (forall t, requested_token req = val t -> t <> ""%string -> toLowerCase t = t ->
             effective_id req = t) /\
  includes "Use CoinGecko token ID (e.g., bitcoin, ethereum)" "CoinGecko token ID".
Proof.
  intros [b Hb] Hr Hok. repeat split.
  - rewrite token_intel_eq, Hb. cbn [member bind].
    unfold fetchTokenInfo. rewrite Hr. cbn [bind]. rewrite Hok. reflexivity.
  - now exists "Token "%string, " not found"%string.
  - intros t Ht Hne Hlow. unfold effective_id. rewrite Ht.
    destruct (String.eqb_spec t ""); [contradiction|exact Hlow].
  - now exists "Use "%string, " (e.g., bitcoin, ethereum)"%string.
Qed.

(** C9, counterexample. The sentiment payload has no reading: the
    sentiment-index operation and the digest report the class "Unknown",
    not "Neutral". *)
Lemma C9_class_defaults_to_Unknown_in_handlers :
  absent (first_class (val {| Fng.data := val [] |})) /\
  (exists reply, fear_greed sentiment_empty = Return reply
     /\ FearGreedOut.classification (FearGreedOut.current (output reply)) = "Unknown"%string
     /\ FearGreedOut.classification (FearGreedOut.current (output reply)) <> "Neutral"%string) /\
  (exists reply, daily_alpha sentiment_empty request_empty = Return reply
     /\ Digest.fearGreedClass (Digest.marketContext (output reply)) = "Unknown"%string
     /\ Digest.fearGreedClass (Digest.marketContext (output reply)) <> "Neutral"%string).
Proof.
  split; [now left|]. split.
  - eexists. split; [vm_compute; reflexivity|]. split; [reflexivity|discriminate].
  - eexists. split; [vm_compute; reflexivity|]. split; [reflexivity|discriminate].
Qed.

Lemma or_else_absent {A} `{Truthy A} (x : js A) (d : A) : absent x -> x ||| d = d.
Proof. now intros [-> | ->]. Qed.

(** C9, as the code has it. An absent sentiment score reads as 50 in the
    signal engine (which then pushes no sentiment signal), in the
    sentiment-index reply and in the digest's market context; an absent
    class reads as "Neutral" in the signal engine, whose sentiment signal
    is then titled "Neutral (<score>) - ...", and as "Unknown" in the
    sentiment-index reply and in the digest's market context. *)
Theorem C9_sentiment_defaults :
  (forall (fearGreed : js Fng.payload) (trending_ : js Trending.payload)
          (topCoins : js (list Market.coin)) (defi : list DeFiProtocol)
          (dexVolume : js DexVolume),
      exists signals,
        buildAlphaSignals fearGreed trending_ topCoins (val defi) dexVolume = Return signals /\
        (absent (first_value fearGreed) ->
           fgValue_of fearGreed = Some 50 /\ of_type sentiment signals = []) /\
        (absent (first_class fearGreed) ->
           forall s, fgValue_of fearGreed = Some s ->
             (s <= 25 ->
                exists sig, of_type sentiment signals = [sig]
                  /\ title sig
                     = ("Neutral (" ++ show_Z s ++ ") - Potential Buy Zone")%string) /\
             (75 <= s ->
                exists sig, of_type sentiment signals = [sig]
                  /\ title sig = ("Neutral (" ++ show_Z s ++ ") - Caution Zone")%string))) /\
  (forall (up : Upstream) (data : Fng.payload) (reply : Reply FearGreedOut.t),
      fetchFearGreed up = Return data ->
      fear_greed up = Return reply ->
      (absent (first_value (val data)) ->
         FearGreedOut.value (FearGreedOut.current (output reply)) = Some 50) /\
      (absent (first_class (val data)) ->
         FearGreedOut.classification (FearGreedOut.current (output reply)) = "Unknown"%string)) /\
  (forall (up : Upstream) (req : Request) (fearGreed : js Fng.payload)
          (reply : Reply Digest.t),
      when_selected (array_includes (selected_sources req) "feargreed") (fetchFearGreed up)
      = Return fearGreed ->
      daily_alpha up req = Return reply ->
      (absent (first_value fearGreed) ->
         Digest.fearGreedIndex (Digest.marketContext (output reply)) = Some 50) /\
      (absent (first_class fearGreed) ->
         Digest.fearGreedClass (Digest.marketContext (output reply)) = "Unknown"%string)).
Proof.
  split; [|split].
  - intros fearGreed trending_ topCoins defi dexVolume.
    eexists. split; [apply buildAlphaSignals_array|].
    rewrite of_type_rules. unfold sentiment_rule, fgClass_of. split.
    + intros H.
      assert (Hv : fgValue_of fearGreed = Some 50).
      { unfold fgValue_of. unfold first_value in H. now rewrite (or_else_absent _ _ H). }
      rewrite Hv. split; reflexivity.
    + intros H s Hs. unfold first_class in H. rewrite (or_else_absent _ _ H), Hs.
      cbn [le_int ge_int show_int]. split.
      * intros Hle. apply Z.leb_le in Hle. rewrite Hle. eexists. split; reflexivity.
      * intros Hge. assert ((s <=? 25) = false) as -> by (apply Z.leb_gt; lia).
        assert ((s >=? 75) = true) as -> by (apply Z.geb_le; lia).
        eexists. split; reflexivity.
  - intros up data reply Hdata. unfold fear_greed. rewrite Hdata. cbn [bind].
    destruct (match Fng.data data with val _ => _ | _ => _ end) as [history|e];
      cbn [bind]; [|discriminate].
    intros [= <-]. cbn. unfold first_value, first_class. cbn [chain].
    split; intros H; now rewrite (or_else_absent _ _ H).
  - intros up req fearGreed reply Hfg. rewrite daily_alpha_eq.
    destruct (member (body_of req) "input"); cbn [bind]; [|discriminate].
    rewrite Hfg. cbn [bind].
    repeat match goal with
           | |- bind ?c _ = _ -> _ => destruct c; cbn [bind]; [|discriminate]
           end.
    intros H. apply Return_inj in H. subst reply.
    cbn [output]. unfold digest_output.
    cbn [Digest.marketContext Digest.fearGreedIndex Digest.fearGreedClass].
    unfold first_value, first_class.
    split; intros H; now rewrite (or_else_absent _ _ H).
Qed.

(** C10 (the code departs from it). A request whose body is the JSON
    value [null] has no token, yet the handler does not look up bitcoin:
    it reads [body.input] before its [try] and throws a TypeError,
    whatever the upstream.  The neighbouring cases are guarded: a body
    that is not JSON is handled like the body [{}], and the body [{}] is
    answered from the bitcoin entry. *)
Theorem C10_null_body_rejects :
  (forall up : Upstream,
      token_intel up request_null
      = Throw (TypeError "Cannot read properties of null (reading 'input')")) /\
  (forall (up : Upstream) (e : JsError), token_intel up (Throw e) = token_intel up request_empty) /\
  (exists reply, token_intel healthy request_empty = Return reply
                 /\ status reply = succeeded
                 /\ effective_id request_empty = "bitcoin"%string).
Proof.
  split; [|split].
  - intros up. reflexivity.
  - intros up e. reflexivity.
  - eexists. split; [vm_compute; reflexivity|]. split; reflexivity.
Qed.

(* ================================================================== *)
(** * The theorems at the sample inputs *)


(** C3 at the score 12: one sentiment signal, of confidence high. *)
Lemma C3_witness_score_12 :
  fgValue_of (val (reading (val "12") (val "Extreme Fear"))) = Some 12 /\
  exists signals sig,
    buildAlphaSignals (val (reading (val "12") (val "Extreme Fear"))) null null (val []) null
    = Return signals /\
    of_type sentiment signals = [sig] /\
    includes (title sig) "Buy Zone" /\
    confidence sig = high.
Proof.
  split; [reflexivity|].
  destruct (C3_sentiment_thresholds (val (reading (val "12") (val "Extreme Fear")))
              null null [] null 12 eq_refl)
    as (signals & Hret & Hbuy & _ & _).
  destruct (Hbuy ltac:(lia)) as (sig & Hsig & Htitle & Hhigh & _).
  exists signals, sig. repeat split; [exact Hret|exact Hsig|exact Htitle|].
  apply Hhigh. lia.
Defined.

(** C4 at a DEX change of 6 and a primary change of -3: one whale signal. *)
Lemma C4_witness_six_minus_three :
  divergence (val [market_row 60000 (-3)]) (val (dex_summary 6)) /\
  exists signals sig,
    buildAlphaSignals null null (val [market_row 60000 (-3)]) (val []) (val (dex_summary 6))
    = Return signals /\
    of_type whale signals = [sig] /\ confidence sig = medium.
Proof.
  assert (D : divergence (val [market_row 60000 (-3)]) (val (dex_summary 6))).
  { exists 6%Q, (-3)%Q. repeat split; reflexivity. }
  split; [exact D|].
  destruct (C4_whale_divergence null null (val [market_row 60000 (-3)]) [] (val (dex_summary 6)))
    as (signals & Hret & Hfire & _).
  destruct (Hfire D) as (sig & Hsig & Hconf).
  exists signals, sig. repeat split; assumption.
Defined.

(** C5 at the changes 12, 8, 15, 20, 5: cutting the list after the third
    asset leaves the result as it is. *)
Lemma C5_witness_five_trending :
  exists signals,
    buildAlphaSignals null (val trending_five) null (val []) null = Return signals /\
    buildAlphaSignals null
      (val {| Trending.coins := val [trending_coin "a" 12; trending_coin "b" 8;
                                     trending_coin "c" 15];
              Trending.nfts := undefined |})
      null (val []) null = Return signals /\
    List.length (of_type narrative signals) = 2%nat.
Proof.
  destruct (C5_narrative_first_three null (val trending_five) null [] null)
    as (signals & Hret & Hnarr & Htail).
  exists signals. split; [exact Hret|]. split.
  - apply Htail. reflexivity.
  - apply Forall2_length in Hnarr. rewrite <- Hnarr. reflexivity.
Defined.

(** C8 at the unknown id "Doge". *)
Lemma C8_witness_doge :
  token_intel healthy (request_token "Doge")
  = Return {| run_id := randomUUID healthy;
              status := failed;
              output := IntelOut.problem "Token doge not found"
                          "Use CoinGecko token ID (e.g., bitcoin, ethereum)" |}.
Proof.
  destruct (C8_token_not_found_reply healthy (request_token "Doge")
              {| ok := false; json := Return no_detail |}
              (ex_intro _ _ eq_refl) eq_refl eq_refl)
    as (H & _).
  exact H.
Defined.

(** C9 at a sentiment payload without readings, and in the engine at a
    reading of score 12 without a class, whose one signal is computed. *)
Lemma C9_witness_no_reading :
  (exists reply,
     fear_greed sentiment_empty = Return reply /\
     FearGreedOut.value (FearGreedOut.current (output reply)) = Some 50 /\
     FearGreedOut.classification (FearGreedOut.current (output reply)) = "Unknown"%string) /\
  buildAlphaSignals (val (reading (val "12") undefined)) null null (val []) null
  = Return [ {| type := sentiment; asset := undefined;
                title := "Neutral (12) - Potential Buy Zone";
                details := "Extreme fear often precedes market reversals. Consider accumulation.";
                confidence := high; actionable := true |} ] /\
  (exists signals sig,
     buildAlphaSignals (val (reading (val "12") undefined)) null null (val []) null
     = Return signals /\
     of_type sentiment signals = [sig] /\
     title sig = "Neutral (12) - Potential Buy Zone"%string).
Proof.
  destruct C9_sentiment_defaults as (Hengine & Hfg & _).
  split; [|split].
  - eexists. split; [vm_compute; reflexivity|].
    refine (let H := Hfg sentiment_empty {| Fng.data := val [] |} _ eq_refl eq_refl in _).
    destruct H as (Hv & Hc).
    split; [apply Hv; now left|apply Hc; now left].
  - vm_compute. reflexivity.
  - destruct (Hengine (val (reading (val "12") undefined)) null null [] null)
      as (signals & Hret & _ & Hclass).
    destruct (Hclass (or_introl eq_refl) 12 eq_refl) as (Hbuy & _).
    destruct (Hbuy ltac:(lia)) as (sig & Hsig & Htitle).
    exists signals, sig. split; [exact Hret|]. split; [exact Hsig|exact Htitle].
Defined.

(* ================================================================== *)
(** * Further properties of the signal engine *)

Lemma growsb_iff p : growsb p = true <-> grows p.
Proof.
  unfold growsb, grows. split.
  - destruct (tvlChange7d p) as [| |c]; try discriminate.
    intros H. exists c. split; [reflexivity|]. now apply Qltb_lt.
  - intros (c & -> & H). now apply Qltb_lt.
Qed.

Lemma flat_map_protocol_rule l :
  Forall2 (fun p sig => exists c, tvlChange7d p = val c /\ (10 < c)%Q
                                  /\ sig = protocol_signal p c)
          (filter growsb l) (flat_map protocol_rule l).
Proof.
  induction l as [|p l IH]; simpl; [constructor|].
  unfold growsb at 1, protocol_rule at 1.
  destruct (tvlChange7d p) as [| |c] eqn:E; simpl; try exact IH.
  destruct (Qltb 10 c) eqn:Ec; simpl; [|exact IH].
  constructor; [|exact IH]. exists c. repeat split; [exact E|now apply Qltb_lt].
Qed.

(** X1. Rule 4 looks at the first three DeFi protocols only: whenever
    the engine returns, its protocol signals are, in order, one signal of
    confidence medium, carrying the protocol's name as asset, for each of
    the first three protocols whose 7-day TVL change is above 10; what
    stands at index 3 or beyond has no effect on the result. *)
Theorem protocol_signals_first_three
    (fearGreed : js Fng.payload) (trending_ : js Trending.payload)
    (topCoins : js (list Market.coin)) (defi : list DeFiProtocol) (dexVolume : js DexVolume) :
  exists signals,
    buildAlphaSignals fearGreed trending_ topCoins (val defi) dexVolume = Return signals /\
    Forall2 (fun p sig =>
               grows p /\ type sig = protocol /\ confidence sig = medium
               /\ asset sig = name p)
            (filter growsb (firstn 3 defi))
            (of_type protocol signals) /\
    (forall defi' : list DeFiProtocol,
        firstn 3 defi' = firstn 3 defi ->
        buildAlphaSignals fearGreed trending_ topCoins (val defi') dexVolume = Return signals).
Proof.
  eexists. split; [apply buildAlphaSignals_array|]. split.
  - rewrite of_type_rules. unfold slice0.
    eapply Forall2_impl; [|apply flat_map_protocol_rule].
    intros p sig (c & E & Hc & ->). repeat split. now exists c.
  - intros defi' H. rewrite buildAlphaSignals_array. unfold slice0. now rewrite H.
Qed.

(** What every signal the rules push satisfies. *)
Lemma rules_invariant
    (fearGreed : js Fng.payload) (trending_ : js Trending.payload)
    (topCoins : js (list Market.coin)) (defi : list DeFiProtocol) (dexVolume : js DexVolume)
    (P : AlphaSignal -> Prop) :
  Forall P (sentiment_rule fearGreed) ->
  Forall P (whale_rule topCoins dexVolume) ->
  (forall c, Forall P (narrative_rule c)) ->
  (forall p, Forall P (protocol_rule p)) ->
  Forall P (sentiment_rule fearGreed
            ++ whale_rule topCoins dexVolume
            ++ flat_map narrative_rule (slice0 3 (trendingCoins_of trending_))
            ++ flat_map protocol_rule (slice0 3 defi)).
Proof.
  intros HS HW HN HP. repeat (apply Forall_app; split); try assumption;
    now apply Forall_flat_map.
Qed.

(** X2. Whenever the engine returns, every signal is actionable, none
    has confidence low, confidence high occurs on sentiment signals only,
    and sentiment and whale signals carry no asset. *)
Theorem signals_actionable_never_low
    (fearGreed : js Fng.payload) (trending_ : js Trending.payload)
    (topCoins : js (list Market.coin)) (defi : list DeFiProtocol) (dexVolume : js DexVolume) :
  exists signals,
    buildAlphaSignals fearGreed trending_ topCoins (val defi) dexVolume = Return signals /\
    Forall (fun s => actionable s = true
                     /\ confidence s <> low
                     /\ (confidence s = high -> type s = sentiment)
                     /\ (type s = sentiment \/ type s = whale -> asset s = undefined))
           signals.
Proof.
  eexists. split; [apply buildAlphaSignals_array|].
  apply rules_invariant.
  - unfold sentiment_rule. destruct (le_int _ 25).
    + repeat constructor; cbn; try reflexivity.
      destruct (le_int _ 15); discriminate.
    + destruct (ge_int _ 75); repeat constructor; cbn; try reflexivity.
      destruct (ge_int _ 85); discriminate.
  - unfold whale_rule. destruct (dexChange _); try constructor.
    destruct (primaryChange _); try constructor.
    destruct (_ && _); repeat constructor; cbn; try reflexivity; discriminate.
  - intros c. unfold narrative_rule. destruct (priceChange_of c); try constructor.
    destruct (Qltb _ _); repeat constructor; cbn; try reflexivity; try discriminate.
    intros [H|H]; discriminate.
  - intros p. unfold protocol_rule. destruct (tvlChange7d p); try constructor.
    destruct (Qltb _ _); repeat constructor; cbn; try reflexivity; try discriminate.
    intros [H|H]; discriminate.
Qed.

Lemma rules_length
    (fearGreed : js Fng.payload) (trending_ : js Trending.payload)
    (topCoins : js (list Market.coin)) (defi : list DeFiProtocol) (dexVolume : js DexVolume) :
  (List.length (sentiment_rule fearGreed
                ++ whale_rule topCoins dexVolume
                ++ flat_map narrative_rule (slice0 3 (trendingCoins_of trending_))
                ++ flat_map protocol_rule (slice0 3 defi)) <= 8)%nat.
Proof.
  rewrite !length_app.
  assert ((List.length (sentiment_rule fearGreed) <= 1)%nat).
  { unfold sentiment_rule. destruct (le_int _ 25); [simpl; lia|].
    destruct (ge_int _ 75); simpl; lia. }
  assert ((List.length (whale_rule topCoins dexVolume) <= 1)%nat).
  { unfold whale_rule. destruct (dexChange _); simpl; try lia.
    destruct (primaryChange _); simpl; try lia.
    destruct (_ && _); simpl; lia. }
  assert ((List.length (flat_map narrative_rule (slice0 3 (trendingCoins_of trending_))) <= 3)%nat).
  { etransitivity; [apply length_flat_map_le|apply firstn_le_length].
    intros x. unfold narrative_rule. destruct (priceChange_of x); simpl; try lia.
    destruct (Qltb _ _); simpl; lia. }
  assert ((List.length (flat_map protocol_rule (slice0 3 defi)) <= 3)%nat).
  { etransitivity; [apply length_flat_map_le|apply firstn_le_length].
    intros x. unfold protocol_rule. destruct (tvlChange7d x); simpl; try lia.
    destruct (Qltb _ _); simpl; lia. }
  lia.
Qed.

(* ================================================================== *)
(** * Further properties of the source clients *)

Lemma topDeFi_of_eq (protocols : list Llama.protocol) :
  topDeFi_of protocols
  = map normalize_protocol
        (firstn 10 (sort by_tvl_desc (filter positive_tvl protocols))).
Proof. reflexivity. Qed.

Lemma length_sort_insert {A} (cmp : A -> A -> number) x l :
  List.length (sort_insert cmp x l) = S (List.length l).
Proof.
  induction l as [|y l IH]; cbn [sort_insert]; [reflexivity|].
  destruct (gt (cmp x y) (Num 0)); simpl; [now rewrite IH|reflexivity].
Qed.

Lemma length_sort {A} (cmp : A -> A -> number) l :
  List.length (sort cmp l) = List.length l.
Proof.
  induction l as [|x l IH]; simpl; [reflexivity|].
  now rewrite length_sort_insert, IH.
Qed.

Lemma StronglySorted_app_inv {A} (R : A -> A -> Prop) l1 l2 :
  StronglySorted R (l1 ++ l2) ->
  forall a b, In a l1 -> In b l2 -> R a b.
Proof.
  induction l1 as [|x l1 IH]; simpl; intros H a b Ha Hb; [contradiction|].
  inversion H as [|? ? Hs Hx]; subst. destruct Ha as [<-|Ha].
  - rewrite Forall_forall in Hx. apply Hx, in_or_app. now right.
  - now apply IH.
Qed.

Lemma positive_tvl_iff p :
  positive_tvl p = true <-> exists q, Llama.tvl p = val q /\ (0 < q)%Q.
Proof.
  unfold positive_tvl. split.
  - intros H. destruct (filter_positive p H) as (q & E & Hq & _). now exists q.
  - intros (q & E & Hq). rewrite gt_val by apply Qle_refl. rewrite E.
    now apply Qltb_lt.
Qed.

(** X3. [fetchTopDeFi] keeps the largest: it returns min(10, n) entries,
    n being the number of protocols with a positive TVL; each returned
    entry is the normalization of an upstream protocol, with at most five
    chains; and a protocol with a positive TVL that is left out has a TVL
    no larger than that of every returned entry. *)
Theorem top_defi_keeps_the_largest (protocols : list Llama.protocol) :
  List.length (topDeFi_of protocols)
  = Nat.min 10 (List.length (filter positive_tvl protocols)) /\
  (forall x, In x (topDeFi_of protocols) ->
     (exists p, In p protocols /\ x = normalize_protocol p)
     /\ (List.length (chains x) <= 5)%nat) /\
  (forall p q, In p protocols -> Llama.tvl p = val q -> (0 < q)%Q ->
     In (normalize_protocol p) (topDeFi_of protocols)
     \/ forall x qx, In x (topDeFi_of protocols) -> tvl x = val qx -> (q <= qx)%Q).
Proof.
  rewrite topDeFi_of_eq.
  set (s := sort by_tvl_desc (filter positive_tvl protocols)).
  assert (Hs : forall y, In y s -> In y protocols /\ positive_tvl y = true).
  { intros y Hy. apply sort_In in Hy. now apply filter_In in Hy. }
  split; [|split].
  - rewrite length_map, length_firstn. unfold s. now rewrite length_sort.
  - intros x Hx. apply in_map_iff in Hx. destruct Hx as (p & <- & Hp).
    split.
    + exists p. split; [|reflexivity].
      apply Hs. rewrite <- (firstn_skipn 10 s). apply in_or_app. now left.
    + unfold normalize_protocol. cbn [chains].
      destruct (Llama.chains p) as [| |c];
        unfold or_else, or_with, chain, truthy, Truthy_list, slice0; cbv beta iota;
        [cbn; lia|cbn; lia|apply firstn_le_length].
  - intros p q Hp Hq Hpos.
    assert (Hin : In p s).
    { apply sort_In, filter_In. split; [exact Hp|].
      apply positive_tvl_iff. now exists q. }
    rewrite <- (firstn_skipn 10 s) in Hin. apply in_app_or in Hin.
    destruct Hin as [Hin|Hin]; [left; now apply in_map|right].
    intros x qx Hx Hqx. apply in_map_iff in Hx. destruct Hx as (y & <- & Hy).
    pose proof (sort_sorted (filter positive_tvl protocols)) as Hsorted.
    fold s in Hsorted. rewrite <- (firstn_skipn 10 s) in Hsorted.
    pose proof (StronglySorted_app_inv _ _ _ Hsorted y p Hy Hin) as Hle.
    unfold tvl_desc in Hle.
    assert (Hy' : In y s).
    { rewrite <- (firstn_skipn 10 s). apply in_or_app. now left. }
    destruct (filter_positive y (proj2 (Hs y Hy'))) as (qy & Ey & _ & Ky).
    destruct (filter_positive p (proj2 (positive_tvl_iff p)
                                   (ex_intro _ q (conj Hq Hpos)))) as (q' & Ep & _ & Kp).
    cbn in Hqx. rewrite Ey in Hqx. injection Hqx as <-.
    rewrite Hq in Ep. injection Ep as <-.
    now rewrite Kp, Ky in Hle.
Qed.

Lemma upper_char_idempotent c : upper_char (upper_char c) = upper_char c.
Proof.
  destruct c as [[] [] [] [] [] [] [] []]; reflexivity.
Qed.

Lemma toUpperCase_idempotent s : toUpperCase (toUpperCase s) = toUpperCase s.
Proof.
  unfold toUpperCase. induction s as [|c s IH]; simpl; [reflexivity|].
  now rewrite upper_char_idempotent, IH.
Qed.

Lemma lower_char_idempotent c : lower_char (lower_char c) = lower_char c.
Proof.
  destruct c as [[] [] [] [] [] [] [] []]; reflexivity.
Qed.

Lemma toLowerCase_idempotent s : toLowerCase (toLowerCase s) = toLowerCase s.
Proof.
  unfold toLowerCase. induction s as [|c s IH]; simpl; [reflexivity|].
  now rewrite lower_char_idempotent, IH.
Qed.

Lemma length_substring_le n s m : (String.length (substring n m s) <= m)%nat.
Proof.
  revert n m. induction s as [|c s IH]; intros [|n] [|m]; simpl; try lia.
  - specialize (IH 0%nat m). lia.
  - apply (IH n 0%nat).
  - apply (IH n (S m)).
Qed.

(** X4. Whatever the detail feed sends, a token record [fetchTokenInfo]
    returns has at most 5 categories, the leading ones of the feed's and
    none when the feed has no list; its description is the first 500
    characters of the feed's English description, and the empty string
    when the feed has none; its symbol has no lower-case letter. *)
Theorem token_info_is_capped
    (up : Upstream) (tokenId : string) (r : Response Gecko.detail) (data : Gecko.detail)
    (info : TokenInfo) :
  coins up tokenId = Return r ->
  json r = Return data ->
  fetchTokenInfo up tokenId = Return info ->
  ((List.length (categories info) <= 5)%nat
   /\ (forall c, Gecko.categories data = val c -> categories info = firstn 5 c)
   /\ (absent (Gecko.categories data) -> categories info = [])) /\
  ((String.length (description info) <= 500)%nat
   /\ (forall t, Gecko.description_ data ?> Gecko.en = val t ->
                 description info = substring 0 500 t)
   /\ (absent (Gecko.description_ data ?> Gecko.en) -> description info = ""%string)) /\
  (forall sym, symbol info = val sym -> toUpperCase sym = sym).
Proof.
  intros Hr Hd. unfold fetchTokenInfo. rewrite Hr. cbn [bind].
  destruct (ok r); cbn [negb]; [|discriminate].
  rewrite Hd. cbn [bind].
  intros H. apply Return_inj in H. subst info.
  cbn [categories description symbol].
  split; [|split].
  - destruct (Gecko.categories data) as [| |c];
      unfold or_else, or_with, chain, truthy, Truthy_list, slice0; cbv beta iota.
    + split; [cbn; lia|]. split; [discriminate|reflexivity].
    + split; [cbn; lia|]. split; [discriminate|reflexivity].
    + split; [apply firstn_le_length|]. split.
      * now intros c' [= <-].
      * intros [H|H]; discriminate.
  - destruct (Gecko.description_ data ?> Gecko.en) as [| |t];
      unfold or_else, or_with, chain, str_slice0; cbv beta iota.
    + split; [cbn; lia|]. split; [discriminate|reflexivity].
    + split; [cbn; lia|]. split; [discriminate|reflexivity].
    + assert (E : (if truthy (substring 0 500 t) then substring 0 500 t else ""%string)
                  = substring 0 500 t).
      { unfold truthy, Truthy_string.
        destruct (String.eqb_spec (substring 0 500 t) ""); cbn [negb]; congruence. }
      rewrite E. split; [apply length_substring_le|]. split.
      * now intros t' [= <-].
      * intros [H|H]; discriminate.
  - intros sym. destruct (Gecko.symbol data) as [| |t]; cbn [chain]; try discriminate.
    intros [= <-]. apply toUpperCase_idempotent.
Qed.

(* ================================================================== *)
(** * Further properties of the digest *)

Lemma returns_or_rejects {A} (c : completion A) : returns c \/ rejects c.
Proof. destruct c as [a|e]; [left; now exists a|right; now exists e]. Qed.

Lemma returns_not_rejects {A} (c : completion A) : returns c -> ~ rejects c.
Proof. intros [a ->] [e H]. discriminate. Qed.

Lemma legacy_daily_alpha_eq (up : Upstream) (sel : list string) :
  Legacy.daily_alpha up sel
  = (fearGreed <- when_selected (array_includes sel "feargreed") (fetchFearGreed up) ;;
     trending_ <- when_selected (array_includes sel "coingecko") (fetchTrending up) ;;
     topCoins <- when_selected (array_includes sel "coingecko") (fetchTopCoins up) ;;
     defi <- when_selected (array_includes sel "defillama") (fetchTopDeFi up) ;;
     dexVolume <- when_selected (array_includes sel "defillama") (fetchDexVolume up) ;;
     signals <- buildAlphaSignals fearGreed trending_ topCoins defi dexVolume ;;
     Return (digest_output up fearGreed trending_ topCoins defi dexVolume signals)).
Proof. reflexivity. Qed.

(** What a digest that returns has gone through. *)
Lemma daily_alpha_inv (up : Upstream) (req : Request) (reply : Reply Digest.t) :
  daily_alpha up req = Return reply ->
  exists fearGreed trending_ topCoins defi dexVolume signals,
    when_selected (array_includes (selected_sources req) "feargreed") (fetchFearGreed up)
    = Return fearGreed /\
    when_selected (array_includes (selected_sources req) "coingecko") (fetchTrending up)
    = Return trending_ /\
    when_selected (array_includes (selected_sources req) "coingecko") (fetchTopCoins up)
    = Return topCoins /\
    when_selected (array_includes (selected_sources req) "defillama") (fetchTopDeFi up)
    = Return (val defi) /\
    when_selected (array_includes (selected_sources req) "defillama") (fetchDexVolume up)
    = Return dexVolume /\
    buildAlphaSignals fearGreed trending_ topCoins (val defi) dexVolume = Return signals /\
    reply = {| run_id := randomUUID up;
               status := succeeded;
               output := digest_output up fearGreed trending_ topCoins (val defi) dexVolume
                           signals |}.
Proof.
  rewrite daily_alpha_eq.
  destruct (member (body_of req) "input"); cbn [bind]; [|discriminate].
  destruct (when_selected _ (fetchFearGreed up)) as [fearGreed|e]; cbn [bind]; [|discriminate].
  destruct (when_selected _ (fetchTrending up)) as [trending_|e]; cbn [bind]; [|discriminate].
  destruct (when_selected _ (fetchTopCoins up)) as [topCoins|e]; cbn [bind]; [|discriminate].
  destruct (when_selected _ (fetchTopDeFi up)) as [defi|e]; cbn [bind]; [|discriminate].
  destruct (when_selected _ (fetchDexVolume up)) as [dexVolume|e]; cbn [bind]; [|discriminate].
  rewrite buildAlphaSignals_eq.
  destruct defi as [| |defi]; cbn [member bind]; try discriminate.
  intros H. apply Return_inj in H.
  exists fearGreed, trending_, topCoins, defi, dexVolume. eexists.
  repeat split; try reflexivity.
  - apply buildAlphaSignals_array.
  - now rewrite <- H.
Qed.

Lemma when_selected_returns {A} (b : bool) (call : completion A) :
  returns (when_selected b call) <-> (b = true -> returns call).
Proof.
  destruct b; simpl.
  - split.
    + intros [x H] _. destruct call as [a|e]; [now exists a|discriminate].
    + intros H. destruct (H eq_refl) as [a ->]. now eexists.
  - split; [discriminate|]. intros _. now eexists.
Qed.

Lemma when_selected_defi {A} (b : bool) (call : completion A) (d : A) :
  when_selected b call = Return (val d) <-> b = true /\ call = Return d.
Proof.
  destruct b; simpl.
  - split.
    + destruct call as [a|e]; cbn [bind]; [|discriminate]. now intros [= ->].
    + now intros [_ ->].
  - split; [discriminate|]. intros [H _]. discriminate.
Qed.

Lemma member_returns {A} (x : js A) (what : string) :
  returns (member x what) <-> exists a, x = val a.
Proof.
  destruct x as [| |a]; simpl.
  - split; [intros [y H]; discriminate|intros [a H]; discriminate].
  - split; [intros [y H]; discriminate|intros [a H]; discriminate].
  - split; intros _; now exists a.
Qed.

(** X5. The digest returns a reply exactly when the request body is not
    [null], 'defillama' is among the selected sources and the call of
    every selected source returns; the reply then has status succeeded.
    In particular a selection without 'defillama', the empty selection
    included, never yields a reply. *)
Theorem digest_returns_iff (up : Upstream) (req : Request) :
  (returns (daily_alpha up req)
   <-> readable req /\ digest_calls_return up (selected_sources req)) /\
  (forall reply, daily_alpha up req = Return reply -> status reply = succeeded) /\
  (array_includes (selected_sources req) "defillama" = false -> rejects (daily_alpha up req)).
Proof.
  assert (Hiff : returns (daily_alpha up req)
                 <-> readable req /\ digest_calls_return up (selected_sources req)).
  { unfold digest_calls_return. split.
    - intros [reply H].
      assert (Hb : readable req).
      { rewrite daily_alpha_eq in H. apply (member_returns (body_of req) "input").
        destruct (member (body_of req) "input") as [b|e]; [now exists b|discriminate]. }
      apply daily_alpha_inv in H.
      destruct H as (fg & tr & tc & d & dv & sg & Hfg & Htr & Htc & Hd & Hdv & _ & _).
      apply when_selected_defi in Hd. destruct Hd as [Hsel Hd].
      split; [exact Hb|].
      split; [|split; [|split; [|split]]].
      + apply when_selected_returns. now exists fg.
      + intros Hc. split; (eapply when_selected_returns; [|exact Hc]);
          [now exists tr|now exists tc].
      + exact Hsel.
      + now exists d.
      + eapply when_selected_returns; [|exact Hsel]. now exists dv.
    - intros ([b Hb] & Hfg & Hcg & Hsel & [d Hd] & Hdv).
      rewrite daily_alpha_eq. rewrite Hb. cbn [member bind]. rewrite Hsel.
      apply when_selected_returns in Hfg. destruct Hfg as [fg ->]. cbn [bind].
      assert (Htr : returns (when_selected (array_includes (selected_sources req) "coingecko")
                               (fetchTrending up)))
        by (apply when_selected_returns; intros H; now apply Hcg).
      assert (Htc : returns (when_selected (array_includes (selected_sources req) "coingecko")
                               (fetchTopCoins up)))
        by (apply when_selected_returns; intros H; now apply Hcg).
      destruct Htr as [tr ->]. cbn [bind]. destruct Htc as [tc ->]. cbn [bind].
      unfold when_selected at 1. rewrite Hd. cbn [bind].
      destruct Hdv as [dv Hdv]. unfold when_selected at 1. rewrite Hdv. cbn [bind].
      rewrite buildAlphaSignals_array. cbn [bind]. now eexists. }
  split; [exact Hiff|]. split.
  - intros reply H. apply daily_alpha_inv in H.
    destruct H as (fg & tr & tc & d & dv & sg & _ & _ & _ & _ & _ & _ & ->). reflexivity.
  - intros Hsel. destruct (returns_or_rejects (daily_alpha up req)) as [H|H]; [|exact H].
    apply Hiff in H. destruct H as (_ & _ & _ & H & _). congruence.
Qed.

Lemma when_selected_ext {A} (b : bool) (c c' : completion A) :
  (b = true -> c = c') -> when_selected b c = when_selected b c'.
Proof. destruct b; simpl; [|reflexivity]. intros H. now rewrite H. Qed.

(** X6. The digest reads the upstream through the selected sources only:
    two upstreams that agree on the feeds of every selected source (and
    on the run id and the clock) give the same outcome, whatever the
    feeds of the deselected sources and the detail feed do. *)
Theorem digest_reads_selected_sources_only (up up' : Upstream) (req : Request) :
  (array_includes (selected_sources req) "feargreed" = true -> fng up = fng up') ->
  (array_includes (selected_sources req) "coingecko" = true ->
     search_trending up = search_trending up' /\ coins_markets up = coins_markets up') ->
  (array_includes (selected_sources req) "defillama" = true ->
     protocols up = protocols up' /\ overview_dexs up = overview_dexs up') ->
  randomUUID up = randomUUID up' ->
  now up = now up' ->
  daily_alpha up req = daily_alpha up' req.
Proof.
  intros Hfg Hcg Hdl Hu Hn. rewrite !daily_alpha_eq.
  destruct (member (body_of req) "input"); cbn [bind]; [|reflexivity].
  rewrite (when_selected_ext _ (fetchFearGreed up) (fetchFearGreed up'))
    by (intros H; unfold fetchFearGreed; now rewrite (Hfg H)).
  rewrite (when_selected_ext _ (fetchTrending up) (fetchTrending up'))
    by (intros H; unfold fetchTrending; now rewrite (proj1 (Hcg H))).
  rewrite (when_selected_ext _ (fetchTopCoins up) (fetchTopCoins up'))
    by (intros H; unfold fetchTopCoins; now rewrite (proj2 (Hcg H))).
  rewrite (when_selected_ext _ (fetchTopDeFi up) (fetchTopDeFi up'))
    by (intros H; unfold fetchTopDeFi; now rewrite (proj1 (Hdl H))).
  rewrite (when_selected_ext _ (fetchDexVolume up) (fetchDexVolume up'))
    by (intros H; unfold fetchDexVolume; now rewrite (proj2 (Hdl H))).
  unfold digest_output. now rewrite Hu, Hn.
Qed.

Lemma when_selected_false {A} (call : completion A) (x : js A) :
  when_selected false call = Return x -> x = null.
Proof. simpl. now intros [= <-]. Qed.

(** X7. A deselected group contributes nothing to a digest that
    returns: without 'feargreed' there is no sentiment signal and the
    index reads 50; without 'coingecko' there is no whale and no
    narrative signal, the trending list is empty and the bitcoin and
    ether fields of the market context are undefined. *)
Theorem digest_deselected_group_is_absent
    (up : Upstream) (req : Request) (reply : Reply Digest.t) :
  daily_alpha up req = Return reply ->
  (array_includes (selected_sources req) "feargreed" = false ->
     of_type sentiment (Digest.signals (output reply)) = []
     /\ Digest.fearGreedIndex (Digest.marketContext (output reply)) = Some 50) /\
  (array_includes (selected_sources req) "coingecko" = false ->
     of_type whale (Digest.signals (output reply)) = []
     /\ of_type narrative (Digest.signals (output reply)) = []
     /\ Digest.trending (output reply) = []
     /\ Digest.btcPrice (Digest.marketContext (output reply)) = undefined
     /\ Digest.btcChange24h (Digest.marketContext (output reply)) = undefined
     /\ Digest.ethPrice (Digest.marketContext (output reply)) = undefined
     /\ Digest.ethChange24h (Digest.marketContext (output reply)) = undefined).
Proof.
  intros H. apply daily_alpha_inv in H.
  destruct H as (fg & tr & tc & d & dv & sg & Hfg & Htr & Htc & _ & _ & Hsg & ->).
  rewrite buildAlphaSignals_array in Hsg. apply Return_inj in Hsg. subst sg.
  cbn [output]. unfold digest_output.
  cbn [Digest.signals Digest.marketContext Digest.fearGreedIndex Digest.trending
       Digest.btcPrice Digest.btcChange24h Digest.ethPrice Digest.ethChange24h].
  split.
  - intros Hsel. rewrite Hsel in Hfg. apply when_selected_false in Hfg. subst fg.
    rewrite of_type_rules. split; reflexivity.
  - intros Hsel. rewrite Hsel in Htr, Htc.
    apply when_selected_false in Htr, Htc. subst tr tc.
    rewrite !of_type_rules. repeat split; try reflexivity.
    unfold whale_rule. now destruct (dexChange dv).
Qed.

(** X8. In a digest that returns, the summary counts the signals: there
    are at most 8 of them, the summary is the "No strong signals" text
    when there is none and "<n> alpha signals detected" otherwise. *)
Theorem digest_summary_counts_signals
    (up : Upstream) (req : Request) (reply : Reply Digest.t) :
  daily_alpha up req = Return reply ->
  (List.length (Digest.signals (output reply)) <= 8)%nat /\
  (Digest.signals (output reply) = [] ->
     Digest.summary (output reply) = "No strong signals - market neutral"%string) /\
  (Digest.signals (output reply) <> [] ->
     Digest.summary (output reply)
     = (show_nat (List.length (Digest.signals (output reply)))
        ++ " alpha signals detected")%string).
Proof.
  intros H. apply daily_alpha_inv in H.
  destruct H as (fg & tr & tc & d & dv & sg & _ & _ & _ & _ & _ & Hsg & ->).
  cbn [output]. unfold digest_output. cbn [Digest.signals Digest.summary].
  split; [|split].
  - rewrite buildAlphaSignals_array in Hsg. apply Return_inj in Hsg. subst sg.
    apply rules_length.
  - now intros ->.
  - intros Hne. destruct sg as [|x sg]; [contradiction|reflexivity].
Qed.

(** X9. In a digest that returns, the trending list has at most five
    rows, one per leading trending asset in upstream order, and the DeFi
    list has at most five rows, which are the leading entries of what
    [fetchTopDeFi] returned, name by name. *)
Theorem digest_lists_are_leading_five
    (up : Upstream) (req : Request) (reply : Reply Digest.t) :
  daily_alpha up req = Return reply ->
  (List.length (Digest.trending (output reply)) <= 5)%nat /\
  (forall data, array_includes (selected_sources req) "coingecko" = true ->
     fetchTrending up = Return data ->
     map Digest.name (Digest.trending (output reply))
     = map (fun c => Trending.item_ c ?> Trending.name)
           (firstn 5 (trendingCoins_of (val data)))) /\
  (List.length (Digest.topDeFi (output reply)) <= 5)%nat /\
  (exists d, fetchTopDeFi up = Return d
             /\ map Digest.defi_name (Digest.topDeFi (output reply))
                = map name (firstn 5 d)).
Proof.
  intros H. apply daily_alpha_inv in H.
  destruct H as (fg & tr & tc & d & dv & sg & _ & Htr & _ & Hd & _ & _ & ->).
  cbn [output]. unfold digest_output. cbn [Digest.trending Digest.topDeFi].
  apply when_selected_defi in Hd. destruct Hd as [_ Hd].
  split; [|split; [|split]].
  - destruct tr as [| |t]; try (cbn; lia). cbn [chain].
    destruct (Trending.coins t) as [| |c]; try (cbn; lia).
    unfold or_else, or_with, chain, truthy, Truthy_list, slice0. cbv beta iota.
    rewrite length_map. apply firstn_le_length.
  - intros data Hsel Hdata. rewrite Hsel in Htr. unfold when_selected in Htr.
    rewrite Hdata in Htr. cbn [bind] in Htr. apply Return_inj in Htr. subst tr.
    unfold trendingCoins_of. cbn [chain].
    destruct (Trending.coins data) as [| |c]; try reflexivity.
    unfold or_else, or_with, chain, truthy, Truthy_list, slice0. cbv beta iota.
    now rewrite map_map.
  - unfold or_else, or_with, chain, truthy, Truthy_list, slice0. cbv beta iota.
    rewrite length_map. apply firstn_le_length.
  - exists d. split; [exact Hd|].
    unfold or_else, or_with, chain, truthy, Truthy_list, slice0. cbv beta iota.
    now rewrite map_map.
Qed.

(** X10. For a request whose body is not [null], the digest of
    [index.ts] is the digest of the earlier agent file run on the
    selected sources, wrapped in a succeeded reply; and whenever the
    earlier file's schema accepts the request's [sources] field (a list
    of source names, or no field), the selection is what that schema
    gives. *)
Theorem digest_agrees_with_legacy (up : Upstream) (req : Request) :
  readable req ->
  daily_alpha up req
  = (o <- Legacy.daily_alpha up (selected_sources req) ;;
     Return {| run_id := randomUUID up; status := succeeded; output := o |}) /\
  (forall l l', body_of req ?> input ?> sources = val l ->
                Legacy.SourcesSchema (Some l) = Some l' ->
                selected_sources req = l') /\
  (body_of req ?> input ?> sources = undefined ->
   Legacy.SourcesSchema None = Some (selected_sources req)).
Proof.
  intros [b Hb]. split; [|split].
  - rewrite daily_alpha_eq, legacy_daily_alpha_eq, Hb. cbn [member bind].
    repeat match goal with
           | |- bind ?c _ = bind (bind ?c _) _ => destruct c; cbn [bind]; [|reflexivity]
           end.
    reflexivity.
  - unfold selected_sources, input_of. rewrite Hb. cbn [chain]. intros l l'.
    destruct (input b) as [| |i]; cbn [chain]; try discriminate.
    intros H. unfold Legacy.SourcesSchema.
    destruct (forallb Legacy.is_source l); [|discriminate]. intros [= <-].
    unfold or_else at 2. unfold or_with. cbn. now rewrite H.
  - unfold selected_sources, input_of. rewrite Hb. cbn [chain].
    destruct (input b) as [| |i]; cbn [chain]; try reflexivity.
    intros H. unfold or_else at 2. unfold or_with. cbn. now rewrite H.
Qed.

(* ================================================================== *)
(** * Further properties of the token lookup *)

Lemma fetchTokenInfo_returns_iff (up : Upstream) (tokenId : string) :
  returns (fetchTokenInfo up tokenId) <-> lookup_found up tokenId.
Proof.
  unfold fetchTokenInfo, lookup_found. split.
  - intros [info H]. destruct (coins up tokenId) as [r|e]; cbn [bind] in H; [|discriminate].
    destruct (ok r) eqn:Hok; cbn [negb] in H; [|discriminate].
    destruct (json r) as [d|e] eqn:Hd; cbn [bind] in H; [|discriminate].
    now exists r, d.
  - intros (r & d & -> & Hok & Hd). cbn [bind]. rewrite Hok, Hd. cbn [negb bind].
    now eexists.
Qed.

(** X11. For a request whose body is not [null], the token-intel
    operation does not reject: once the lookup call has settled it
    returns a reply.  The reply is succeeded, carrying the token record,
    exactly when the lookup of the effective id succeeds; otherwise it is
    failed and its error is the message of whatever the lookup threw (a
    rejected fetch and a body that is not JSON included), with the id
    hint.  With the body [null] the handler throws before the lookup. *)
Theorem token_intel_always_replies (up : Upstream) (req : Request) :
  (readable req ->
   exists reply,
     token_intel up req = Return reply /\
     (lookup_found up (effective_id req) ->
        status reply = succeeded
        /\ exists info analysis,
             fetchTokenInfo up (effective_id req) = Return info
             /\ output reply = IntelOut.found (now up) info analysis) /\
     (~ lookup_found up (effective_id req) ->
        status reply = failed
        /\ exists e,
             fetchTokenInfo up (effective_id req) = Throw e
             /\ output reply
                = IntelOut.problem (message e)
                    "Use CoinGecko token ID (e.g., bitcoin, ethereum)")) /\
  (body_of req = null ->
   token_intel up req
   = Throw (TypeError "Cannot read properties of null (reading 'input')")).
Proof.
  rewrite token_intel_eq. split.
  - intros [b ->]. cbn [member bind].
    destruct (fetchTokenInfo up (effective_id req)) as [info|e] eqn:E; cbn [bind try_catch].
    + eexists. split; [reflexivity|]. split.
      * intros _. split; [reflexivity|]. now eexists _, _.
      * intros Hn. exfalso. apply Hn. apply fetchTokenInfo_returns_iff.
        rewrite E. now exists info.
    + eexists. split; [reflexivity|]. split.
      * intros Hf. apply fetchTokenInfo_returns_iff in Hf. rewrite E in Hf.
        destruct Hf as [x Hx]. discriminate.
      * intros _. split; [reflexivity|]. now exists e.
  - intros ->. reflexivity.
Qed.

(** X19. The id the token-intel operation looks up is the lower-cased
    token when the request supplies a non-empty one, and "bitcoin" when
    the token is absent or empty: for a request whose body is not [null]
    the reply carries the record [fetchTokenInfo] returns for that id,
    or the message it throws for that id ("Token <id> not found" on a
    non-success status). *)
Theorem token_lookup_id_is_lowercased_or_bitcoin
    (up : Upstream) (req : Request) (tokenId : string) :
  readable req ->
  (exists t, requested_token req = val t /\ t <> ""%string /\ tokenId = toLowerCase t)
  \/ ((absent (requested_token req) \/ requested_token req = val ""%string)
      /\ tokenId = "bitcoin"%string) ->
  exists reply,
    token_intel up req = Return reply /\
    (forall info, fetchTokenInfo up tokenId = Return info ->
       status reply = succeeded
       /\ exists analysis, output reply = IntelOut.found (now up) info analysis) /\
    (forall e, fetchTokenInfo up tokenId = Throw e ->
       status reply = failed
       /\ output reply = IntelOut.problem (message e)
                           "Use CoinGecko token ID (e.g., bitcoin, ethereum)") /\
    (forall r, coins up tokenId = Return r -> ok r = false ->
       output reply = IntelOut.problem ("Token " ++ tokenId ++ " not found")
                        "Use CoinGecko token ID (e.g., bitcoin, ethereum)").
Proof.
  intros [b Hb] Hid.
  assert (E : effective_id req = tokenId).
  { unfold effective_id.
    destruct Hid as [(t & -> & Hne & ->)|[[[-> | ->] | ->] ->]]; try reflexivity.
    destruct (String.eqb_spec t ""); [contradiction|reflexivity]. }
  rewrite token_intel_eq, Hb, E. cbn [member bind].
  destruct (fetchTokenInfo up tokenId) as [info|e] eqn:Ef; cbn [bind try_catch];
    eexists; (split; [reflexivity|]); cbn [status output]; (split; [|split]).
  - intros info' H. apply Return_inj in H. subst info'. split; [reflexivity|]. now eexists.
  - intros e H. discriminate.
  - intros r Hr Hok. unfold fetchTokenInfo in Ef. rewrite Hr in Ef. cbn [bind] in Ef.
    rewrite Hok in Ef. discriminate.
  - intros info H. discriminate.
  - intros e' [= <-]. split; reflexivity.
  - intros r Hr Hok. unfold fetchTokenInfo in Ef. rewrite Hr in Ef. cbn [bind] in Ef.
    rewrite Hok in Ef. cbn [negb] in Ef. injection Ef as <-. reflexivity.
Qed.

Lemma found_inj ts info a ts' info' a' :
  IntelOut.found ts info a = IntelOut.found ts' info' a' ->
  ts = ts' /\ info = info' /\ a = a'.
Proof. now intros [= -> -> ->]. Qed.

(** X12. The momentum of a found token is read off its 7-day price
    change: "bullish" above 0, "bearish" below -10, and "neutral" from
    -10 to 0 and when the change is absent. *)
Theorem token_momentum_thresholds
    (up : Upstream) (req : Request) (reply : Reply IntelOut.t)
    (ts : string) (info : TokenInfo) (analysis : IntelOut.analysis) :
  token_intel up req = Return reply ->
  output reply = IntelOut.found ts info analysis ->
  (forall q, priceChange7d info = val q -> (0 < q)%Q ->
             IntelOut.momentum analysis = "bullish"%string) /\
  (forall q, priceChange7d info = val q -> (q < -10)%Q ->
             IntelOut.momentum analysis = "bearish"%string) /\
  (forall q, priceChange7d info = val q -> (-10 <= q)%Q -> (q <= 0)%Q ->
             IntelOut.momentum analysis = "neutral"%string) /\
  (absent (priceChange7d info) -> IntelOut.momentum analysis = "neutral"%string).
Proof.
  rewrite token_intel_eq.
  destruct (member (body_of req) "input"); cbn [bind]; [|discriminate].
  destruct (fetchTokenInfo up (effective_id req)) as [data|e]; cbn [bind try_catch];
    intros H; apply Return_inj in H; subst reply; cbn [output]; [|discriminate].
  intros H. apply found_inj in H. destruct H as (_ & <- & <-).
  cbn [IntelOut.momentum].
  rewrite gt_val by apply Qle_refl.
  rewrite lt_val by (unfold Qle; simpl; lia).
  split; [|split; [|split]].
  - intros q -> Hq. apply Qltb_lt in Hq. now rewrite Hq.
  - intros q -> Hq.
    assert (Qltb 0 q = false) as ->.
    { destruct (Qltb 0 q) eqn:E; [|reflexivity]. apply Qltb_lt in E.
      exfalso. apply (Qlt_irrefl q). eapply Qlt_trans; [exact Hq|].
      eapply Qlt_trans; [|exact E]. reflexivity. }
    apply Qltb_lt in Hq. now rewrite Hq.
  - intros q -> Hlo Hhi.
    assert (Qltb 0 q = false) as ->.
    { destruct (Qltb 0 q) eqn:E; [|reflexivity]. apply Qltb_lt in E.
      exfalso. exact (Qlt_not_le _ _ E Hhi). }
    assert (Qltb q (-10) = false) as ->.
    { destruct (Qltb q (-10)) eqn:E; [|reflexivity]. apply Qltb_lt in E.
      exfalso. exact (Qlt_not_le _ _ E Hlo). }
    reflexivity.
  - intros [-> | ->]; reflexivity.
Qed.

Lemma toLowerCase_empty_iff t : toLowerCase t = ""%string <-> t = ""%string.
Proof. destruct t; simpl; split; intros H; try reflexivity; discriminate. Qed.

Lemma effective_id_request_token t :
  effective_id (request_token t)
  = if String.eqb t "" then "bitcoin"%string else toLowerCase t.
Proof. reflexivity. Qed.

(** X13. The lookup is case-insensitive: two non-empty tokens that
    differ only in the case of their letters get the same reply, and a
    token spelling "bitcoin" in any case gets the reply of a request
    without a token. *)
Theorem token_lookup_ignores_case (up : Upstream) (t t' : string) :
  t <> ""%string -> t' <> ""%string ->
  toLowerCase t = toLowerCase t' ->
  token_intel up (request_token t) = token_intel up (request_token t') /\
  (toLowerCase t = "bitcoin"%string ->
   token_intel up (request_token t) = token_intel up request_empty).
Proof.
  intros Ht Ht' Hlow.
  rewrite !token_intel_eq, !effective_id_request_token.
  destruct (String.eqb_spec t ""); [contradiction|].
  destruct (String.eqb_spec t' ""); [contradiction|].
  split; [now rewrite Hlow|]. intros ->. reflexivity.
Qed.

(** X14. For a request with a non-empty token, the handler of
    [index.ts] and the token-intel handler of the earlier agent file
    compute the same output. *)
Theorem token_intel_agrees_with_legacy (up : Upstream) (req : Request) (t : string) :
  requested_token req = val t -> t <> ""%string ->
  exists reply,
    token_intel up req = Return reply /\
    Legacy.token_intel up t = Return (output reply).
Proof.
  intros Ht Hne. rewrite token_intel_eq. unfold Legacy.token_intel, effective_id.
  rewrite Ht. unfold requested_token in Ht.
  destruct (body_of req) as [| |b]; try discriminate. cbn [member bind].
  destruct (String.eqb_spec t ""); [contradiction|].
  destruct (fetchTokenInfo up (toLowerCase t)) as [info|e]; cbn [bind try_catch];
    eexists; split; reflexivity.
Qed.

(* ================================================================== *)
(** * Further properties of the single-source operations *)

Lemma map_m_Forall2 {A B} (f : A -> completion B) l ys :
  map_m f l = Return ys -> Forall2 (fun x y => f x = Return y) l ys.
Proof.
  revert ys. induction l as [|x l IH]; simpl; intros ys H.
  - apply Return_inj in H. subst ys. constructor.
  - destruct (f x) as [y|e] eqn:E; cbn [bind] in H; [|discriminate].
    destruct (map_m f l) as [ys'|e]; cbn [bind] in H; [|discriminate].
    apply Return_inj in H. subst ys. constructor; [exact E|now apply IH].
Qed.

Lemma map_m_returns {A B} (f : A -> completion B) l :
  returns (map_m f l) <-> Forall (fun x => returns (f x)) l.
Proof.
  induction l as [|x l IH]; simpl.
  - split; [constructor|]. intros _. now eexists.
  - split.
    + intros [ys H]. destruct (f x) as [y|e] eqn:E; cbn [bind] in H; [|discriminate].
      destruct (map_m f l) as [ys'|e]; cbn [bind] in H; [|discriminate].
      constructor; [now exists y|]. apply IH. now exists ys'.
    + intros H. inversion H as [|? ? [y Hy] Hl]; subst.
      apply IH in Hl. destruct Hl as [ys' Hys]. rewrite Hy, Hys. cbn [bind]. now eexists.
Qed.

Lemma map_m_throws {A B} (f : A -> completion B) (e : JsError) l :
  (forall x, returns (f x) \/ f x = Throw e) ->
  ~ returns (map_m f l) -> map_m f l = Throw e.
Proof.
  intros Hf. induction l as [|x l IH]; simpl; intros Hn.
  - exfalso. apply Hn. now eexists.
  - destruct (Hf x) as [[y Hy]|Hx]; [|now rewrite Hx].
    rewrite Hy in Hn |- *. cbn [bind] in Hn |- *.
    rewrite IH; [reflexivity|]. intros [ys Hys]. apply Hn. rewrite Hys. cbn [bind].
    now eexists.
Qed.

Lemma iso_date_returns (t : option Z) :
  returns (iso_date t) <-> exists ms, t = Some ms /\ Z.abs ms <= 8640000000000000.
Proof.
  unfold iso_date. destruct t as [ms|].
  - destruct (Z.leb_spec (Z.abs ms) 8640000000000000) as [H|H].
    + destruct (civil_from_days (ms / 86400000)) as [[y m] d].
      split; [intros _; now exists ms|intros _; now eexists].
    + split; [intros [x Hx]; discriminate|]. intros (ms' & [= <-] & H'). lia.
  - split; [intros [x Hx]; discriminate|]. intros (ms' & Hms & _). discriminate.
Qed.

Lemma iso_date_throws (t : option Z) :
  returns (iso_date t) \/ iso_date t = Throw (RangeError "Invalid time value").
Proof.
  unfold iso_date. destruct t as [ms|]; [|now right].
  destruct (Z.abs ms <=? 8640000000000000); [|now right].
  destruct (civil_from_days (ms / 86400000)) as [[y m] d]. left. now eexists.
Qed.

Lemma history_row_returns (d : Fng.entry) (B : Type) (k : string -> B) :
  returns (date <- iso_date (option_map (fun n => n * 1000) (parseInt_js (Fng.timestamp d))) ;;
           Return (k date))
  <-> valid_timestamp d.
Proof.
  unfold valid_timestamp. split.
  - intros [row H].
    destruct (iso_date _) as [date|e] eqn:E; cbn [bind] in H; [|discriminate].
    assert (Hr : returns (iso_date (option_map (fun n => n * 1000)
                                      (parseInt_js (Fng.timestamp d)))))
      by (rewrite E; now exists date).
    apply iso_date_returns in Hr. destruct Hr as (ms & Hms & Hb).
    destruct (parseInt_js (Fng.timestamp d)) as [n|]; [|discriminate].
    apply (f_equal (fun o => match o with Some z => z | None => 0 end)) in Hms.
    cbn in Hms. subst ms. now exists n.
  - intros (n & Hn & Hb). rewrite Hn. cbn [option_map].
    assert (Hr : returns (iso_date (Some (n * 1000))))
      by (apply iso_date_returns; now exists (n * 1000)).
    destruct Hr as [date ->]. cbn [bind]. now eexists.
Qed.

(** X15. The sentiment-index operation returns exactly when the
    sentiment call returns and every reading carries a timestamp that
    denotes a printable date; a reading without one makes the whole
    operation fail with a RangeError.  When it returns, the history has
    one row per reading of the payload, in order and without a cap, each
    with the reading's own score and class. *)
Theorem fear_greed_returns_iff (up : Upstream) :
  (returns (fear_greed up) <->
   exists data, fetchFearGreed up = Return data
                /\ forall entries, Fng.data data = val entries ->
                                   Forall valid_timestamp entries) /\
  (forall data entries,
      fetchFearGreed up = Return data -> Fng.data data = val entries ->
      ~ Forall valid_timestamp entries ->
      fear_greed up = Throw (RangeError "Invalid time value")) /\
  (forall reply data,
      fear_greed up = Return reply -> fetchFearGreed up = Return data ->
      status reply = succeeded /\
      Forall2 (fun d row =>
                 FearGreedOut.past_value row = parseInt_js (Fng.value d)
                 /\ FearGreedOut.past_classification row = Fng.value_classification d)
              (Fng.data data ||| [])
              (FearGreedOut.history (output reply))).
Proof.
  unfold fear_greed. split; [|split].
  - split.
    + intros [reply H]. destruct (fetchFearGreed up) as [data|e]; cbn [bind] in H;
        [|discriminate].
      exists data. split; [reflexivity|]. intros entries He. rewrite He in H.
      destruct (map_m _ entries) as [history|e] eqn:E; cbn [bind] in H; [|discriminate].
      assert (Hr : returns (map_m
        (fun d => date <- iso_date (option_map (fun n => n * 1000)
                                      (parseInt_js (Fng.timestamp d))) ;;
                  Return {| FearGreedOut.past_value := parseInt_js (Fng.value d);
                            FearGreedOut.past_classification := Fng.value_classification d;
                            FearGreedOut.date := date |}) entries))
        by (rewrite E; now exists history).
      apply map_m_returns in Hr. eapply Forall_impl; [|exact Hr].
      intros d Hd. now apply history_row_returns in Hd.
    + intros (data & -> & Hv). cbn [bind].
      destruct (Fng.data data) as [| |entries]; cbn [bind]; try (now eexists).
      assert (Hr : returns (map_m
        (fun d => date <- iso_date (option_map (fun n => n * 1000)
                                      (parseInt_js (Fng.timestamp d))) ;;
                  Return {| FearGreedOut.past_value := parseInt_js (Fng.value d);
                            FearGreedOut.past_classification := Fng.value_classification d;
                            FearGreedOut.date := date |}) entries)).
      { apply map_m_returns. eapply Forall_impl; [|exact (Hv entries eq_refl)].
        intros d Hd. now apply history_row_returns. }
      destruct Hr as [history ->]. cbn [bind]. now eexists.
  - intros data entries -> He Hn. cbn [bind]. rewrite He.
    rewrite (map_m_throws _ (RangeError "Invalid time value")); [reflexivity| |].
    + intros d. destruct (iso_date_throws (option_map (fun n => n * 1000)
                                             (parseInt_js (Fng.timestamp d)))) as [[x ->] | ->];
        [left; cbn [bind]; now eexists|now right].
    + intros Hr. apply Hn. apply map_m_returns in Hr. eapply Forall_impl; [|exact Hr].
      intros d Hd. now apply history_row_returns in Hd.
  - intros reply data H Hd. rewrite Hd in H. cbn [bind] in H.
    destruct (Fng.data data) as [| |entries]; cbn [bind] in H.
    + apply Return_inj in H. subst reply. split; [reflexivity|constructor].
    + apply Return_inj in H. subst reply. split; [reflexivity|constructor].
    + destruct (map_m _ entries) as [history|e] eqn:E; cbn [bind] in H; [|discriminate].
      apply Return_inj in H. subst reply. split; [reflexivity|].
      cbn [output FearGreedOut.history].
      change (val entries ||| []) with entries.
      apply map_m_Forall2 in E. eapply Forall2_impl; [|exact E].
      intros d row Hrow. cbn beta in Hrow.
      destruct (iso_date _) as [date|e']; cbn [bind] in Hrow; [|discriminate].
      apply Return_inj in Hrow. subst row. split; reflexivity.
Qed.

(** X16. The sentiment-index reply reports the score the signal engine
    works with ([parseInt] of the first reading's value, 50 when absent),
    and its interpretation follows the engine's cut points: the fear text
    at 25 and below, the greed text at 75 and above, the neutral text in
    between and when the value is not a number. *)
Theorem fear_greed_interpretation
    (up : Upstream) (reply : Reply FearGreedOut.t) (data : Fng.payload) :
  fear_greed up = Return reply ->
  fetchFearGreed up = Return data ->
  FearGreedOut.value (FearGreedOut.current (output reply)) = fgValue_of (val data) /\
  (forall s, fgValue_of (val data) = Some s -> s <= 25 ->
     FearGreedOut.interpretation (output reply)
     = "Extreme fear often signals buying opportunities"%string) /\
  (forall s, fgValue_of (val data) = Some s -> 75 <= s ->
     FearGreedOut.interpretation (output reply)
     = "Extreme greed may signal market tops"%string) /\
  (forall s, fgValue_of (val data) = Some s -> 25 < s < 75 ->
     FearGreedOut.interpretation (output reply)
     = "Market sentiment is neutral to moderate"%string) /\
  (fgValue_of (val data) = None ->
     FearGreedOut.interpretation (output reply)
     = "Market sentiment is neutral to moderate"%string).
Proof.
  unfold fear_greed. intros H Hd. rewrite Hd in H. cbn [bind] in H.
  destruct (match Fng.data data with val _ => _ | _ => _ end) as [history|e];
    cbn [bind] in H; [|discriminate].
  apply Return_inj in H. subst reply.
  cbn [output FearGreedOut.current FearGreedOut.value FearGreedOut.interpretation].
  change (parseInt (Fng.data data ?> at_index 0 ?> Fng.value ||| "50"))
    with (fgValue_of (val data)).
  split; [reflexivity|]. split; [|split; [|split]].
  - intros s -> Hs. cbn [le_int]. now apply Z.leb_le in Hs as ->.
  - intros s -> Hs. cbn [le_int ge_int].
    assert ((s <=? 25) = false) as -> by (apply Z.leb_gt; lia).
    assert ((s >=? 75) = true) as -> by (apply Z.geb_le; lia). reflexivity.
  - intros s -> [H1 H2]. cbn [le_int ge_int].
    assert ((s <=? 25) = false) as -> by (apply Z.leb_gt; lia).
    assert ((s >=? 75) = false) as -> by (rewrite Z.geb_leb; apply Z.leb_gt; lia).
    reflexivity.
  - intros ->. reflexivity.
Qed.

(** X17. The trending operation returns exactly when the trending call
    returns; its reply lists at most 10 assets and at most 5 NFTs, the
    leading ones of the payload in upstream order (none where the payload
    has no such list), each asset with its 24h price change. *)
Theorem trending_lists_leading_rows (up : Upstream) :
  (returns (trending up) <-> returns (fetchTrending up)) /\
  (forall reply data,
      trending up = Return reply -> fetchTrending up = Return data ->
      status reply = succeeded /\
      (List.length (TrendingOut.coins (output reply)) <= 10)%nat /\
      (List.length (TrendingOut.nfts (output reply)) <= 5)%nat /\
      map TrendingOut.name (TrendingOut.coins (output reply))
      = map (fun c => Trending.item_ c ?> Trending.name)
            (firstn 10 (Trending.coins data ||| [])) /\
      map TrendingOut.priceChange24h (TrendingOut.coins (output reply))
      = map priceChange_of (firstn 10 (Trending.coins data ||| [])) /\
      map TrendingOut.nft_name (TrendingOut.nfts (output reply))
      = map Trending.nft_name (firstn 5 (Trending.nfts data ||| []))).
Proof.
  unfold trending. split.
  - split.
    + intros [reply H]. destruct (fetchTrending up) as [data|e]; [now exists data|discriminate].
    + intros [data ->]. cbn [bind]. now eexists.
  - intros reply data H Hd. rewrite Hd in H. cbn [bind] in H.
    apply Return_inj in H. subst reply.
    cbn [output status TrendingOut.coins TrendingOut.nfts].
    split; [reflexivity|].
    destruct (Trending.coins data) as [| |coins]; destruct (Trending.nfts data) as [| |nfts];
      unfold or_else, or_with, chain, truthy, Truthy_list, slice0; cbv beta iota;
      rewrite ?length_map, ?map_map; cbn [map];
      repeat split; try reflexivity; try (cbn; lia); apply firstn_le_length.
Qed.

(** X18. The defi-stats operation returns exactly when both the protocol
    call and the DEX-volume call return; its reply has one row per entry
    [fetchTopDeFi] returned (at most 10), in the same order, with the
    entry's name and chains and its TVL in billions, and the DEX volume
    in billions. *)
Theorem defi_stats_rows (up : Upstream) :
  (returns (defi_stats up) <-> returns (fetchTopDeFi up) /\ returns (fetchDexVolume up)) /\
  (forall reply d dv,
      defi_stats up = Return reply ->
      fetchTopDeFi up = Return d -> fetchDexVolume up = Return dv ->
      status reply = succeeded /\
      (List.length (DefiOut.topProtocols (output reply)) <= 10)%nat /\
      map DefiOut.name (DefiOut.topProtocols (output reply)) = map name d /\
      map DefiOut.chains (DefiOut.topProtocols (output reply)) = map chains d /\
      map DefiOut.tvl (DefiOut.topProtocols (output reply))
      = map (fun p => billions (tvl p)) d /\
      DefiOut.total24h (DefiOut.dexVolume (output reply)) = billions (total24h dv)).
Proof.
  unfold defi_stats. split.
  - split.
    + intros [reply H]. destruct (fetchTopDeFi up) as [d|e]; cbn [bind] in H; [|discriminate].
      destruct (fetchDexVolume up) as [dv|e]; cbn [bind] in H; [|discriminate].
      split; now eexists.
    + intros [[d ->] [dv ->]]. cbn [bind]. now eexists.
  - intros reply d dv H Hd Hdv. rewrite Hd, Hdv in H. cbn [bind] in H.
    apply Return_inj in H. subst reply.
    cbn [output status DefiOut.topProtocols DefiOut.dexVolume DefiOut.total24h].
    rewrite length_map, !map_map. cbn [DefiOut.name DefiOut.chains DefiOut.tvl].
    repeat split; try reflexivity; try (now rewrite map_id).
    unfold fetchTopDeFi in Hd.
    destruct (protocols up) as [r|e]; cbn [bind] in Hd; [|discriminate].
    destruct (json r) as [ps|e]; cbn [bind] in Hd; [|discriminate].
    apply Return_inj in Hd. subst d. unfold topDeFi_of, slice0.
    rewrite length_map. apply firstn_le_length.
Qed.

(* ================================================================== *)
(** * The further properties at the sample inputs *)

(** X1 at four protocols growing by 12, 3, 15 and 20: two protocol
    signals, and the fourth protocol does not count. *)
Lemma protocol_signals_witness :
  exists signals,
    buildAlphaSignals null null null (val defi_four) null = Return signals /\
    buildAlphaSignals null null null (val (firstn 3 defi_four)) null = Return signals /\
    List.length (of_type protocol signals) = 2%nat.
Proof.
  destruct (protocol_signals_first_three null null null defi_four null)
    as (signals & Hret & Hrows & Htail).
  exists signals. split; [exact Hret|]. split.
  - apply Htail. reflexivity.
  - apply Forall2_length in Hrows. rewrite <- Hrows. reflexivity.
Defined.

(** X3 at the sample protocol list: the smallest positive entry is kept. *)
Lemma top_defi_witness :
  List.length (topDeFi_of llama_list) = 3%nat /\
  (In (normalize_protocol (llama_protocol "small" (val 5%Q) 1)) (topDeFi_of llama_list)
   \/ forall x qx, In x (topDeFi_of llama_list) -> tvl x = val qx -> (5 <= qx)%Q).
Proof.
  destruct (top_defi_keeps_the_largest llama_list) as (Hlen & _ & Htop).
  split; [rewrite Hlen; reflexivity|].
  apply (Htop (llama_protocol "small" (val 5%Q) 1) 5%Q).
  - simpl. now left.
  - reflexivity.
  - reflexivity.
Defined.

(** X4 at the bitcoin entry of the sample detail feed. *)
Lemma token_info_witness :
  exists info,
    fetchTokenInfo healthy "bitcoin" = Return info /\
    categories info = ["Cryptocurrency"]%string /\
    description info = ""%string.
Proof.
  eexists. split; [vm_compute; reflexivity|].
  refine (let H := token_info_is_capped healthy "bitcoin"
                     {| ok := true; json := Return bitcoin_detail |} bitcoin_detail _
                     eq_refl eq_refl eq_refl in _).
  destruct H as ((_ & Hc & _) & (_ & _ & Hd) & _).
  split; [exact (Hc _ eq_refl)|]. apply Hd. now left.
Defined.

(** X5 at the sample upstream: the default selection returns, the
    selection of 'feargreed' alone does not. *)
Lemma digest_returns_witness :
  returns (daily_alpha healthy request_empty) /\
  rejects (daily_alpha healthy (request_sources ["feargreed"])).
Proof.
  split.
  - destruct (digest_returns_iff healthy request_empty) as (Hiff & _ & _).
    apply Hiff. split; [now eexists|]. unfold digest_calls_return.
    repeat split; try (intros _); try reflexivity; eexists; vm_compute; reflexivity.
  - destruct (digest_returns_iff healthy (request_sources ["feargreed"])) as (_ & _ & Hno).
    apply Hno. reflexivity.
Defined.

(** X6: with 'feargreed' deselected, an unreachable sentiment index
    changes nothing. *)
Lemma digest_selected_only_witness :
  daily_alpha healthy (request_sources ["defillama"; "coingecko"])
  = daily_alpha sentiment_down (request_sources ["defillama"; "coingecko"]).
Proof.
  apply digest_reads_selected_sources_only; try reflexivity.
  - intros H. vm_compute in H. discriminate.
  - intros _. split; reflexivity.
  - intros _. split; reflexivity.
Defined.

(** X7 at the selection of 'defillama' alone. *)
Lemma digest_deselected_witness :
  exists reply,
    daily_alpha healthy (request_sources ["defillama"]) = Return reply /\
    of_type sentiment (Digest.signals (output reply)) = [] /\
    of_type narrative (Digest.signals (output reply)) = [] /\
    Digest.trending (output reply) = [].
Proof.
  eexists. split; [vm_compute; reflexivity|].
  refine (let H := digest_deselected_group_is_absent healthy (request_sources ["defillama"])
                     _ eq_refl in _).
  destruct H as (Hfg & Hcg).
  destruct (Hfg eq_refl) as (Hs & _).
  destruct (Hcg eq_refl) as (_ & Hn & Ht & _).
  split; [exact Hs|]. split; [exact Hn|exact Ht].
Defined.

(** X8 at the sample upstream: five signals. *)
Lemma digest_summary_witness :
  exists reply,
    daily_alpha healthy request_empty = Return reply /\
    (List.length (Digest.signals (output reply)) <= 8)%nat /\
    Digest.summary (output reply) = "5 alpha signals detected"%string.
Proof.
  eexists. split; [vm_compute; reflexivity|].
  refine (let H := digest_summary_counts_signals healthy request_empty _ eq_refl in _).
  destruct H as (Hlen & _ & Hsome).
  split; [exact Hlen|]. apply Hsome. discriminate.
Defined.

(** X9 at the sample upstream: five trending rows out of five assets. *)
Lemma digest_lists_witness :
  exists reply,
    daily_alpha healthy request_empty = Return reply /\
    (List.length (Digest.trending (output reply)) <= 5)%nat /\
    (List.length (Digest.topDeFi (output reply)) <= 5)%nat /\
    map Digest.name (Digest.trending (output reply))
    = [val "a"; val "b"; val "c"; val "d"; val "e"]%string.
Proof.
  eexists. split; [vm_compute; reflexivity|].
  refine (let H := digest_lists_are_leading_five healthy request_empty _ eq_refl in _).
  destruct H as (Ht & Hnames & Hd & _).
  split; [exact Ht|]. split; [exact Hd|].
  exact (Hnames trending_five eq_refl eq_refl).
Defined.

(** X11 at the sample upstream: "Doge" is unknown, no token means bitcoin. *)
Lemma token_intel_replies_witness :
  (exists reply, token_intel healthy (request_token "Doge") = Return reply
                 /\ status reply = failed) /\
  (exists reply, token_intel healthy request_empty = Return reply
                 /\ status reply = succeeded).
Proof.
  split.
  - destruct (token_intel_always_replies healthy (request_token "Doge")) as (Hreply & _).
    destruct (Hreply (ex_intro _ _ eq_refl)) as (reply & Hret & _ & Hmiss).
    exists reply. split; [exact Hret|]. apply Hmiss.
    intros (r & d & Hr & Hok & _). vm_compute in Hr.
    apply Return_inj in Hr. subst r. discriminate.
  - destruct (token_intel_always_replies healthy request_empty) as (Hreply & _).
    destruct (Hreply (ex_intro _ _ eq_refl)) as (reply & Hret & Hfound & _).
    exists reply. split; [exact Hret|]. apply Hfound.
    eexists _, _. repeat split; reflexivity.
Defined.

(** X12 at the bitcoin entry, which carries no market data: neutral. *)
Lemma token_momentum_witness :
  exists reply ts info analysis,
    token_intel healthy request_empty = Return reply /\
    output reply = IntelOut.found ts info analysis /\
    IntelOut.momentum analysis = "neutral"%string.
Proof.
  eexists _, _, _, _. split; [vm_compute; reflexivity|]. split; [reflexivity|].
  refine (let H := token_momentum_thresholds healthy request_empty _ _ _ _
                     eq_refl eq_refl in _).
  destruct H as (_ & _ & _ & Habs). apply Habs. now left.
Defined.

(** X13 at "BitCoin" and "bitcoin". *)
Lemma token_case_witness :
  token_intel healthy (request_token "BitCoin") = token_intel healthy (request_token "bitcoin") /\
  token_intel healthy (request_token "BitCoin") = token_intel healthy request_empty.
Proof.
  destruct (token_lookup_ignores_case healthy "BitCoin" "bitcoin"
              ltac:(discriminate) ltac:(discriminate) eq_refl) as (Hsame & Hdefault).
  split; [exact Hsame|]. apply Hdefault. reflexivity.
Defined.

(** X14 at the token "Doge". *)
Lemma token_legacy_witness :
  exists reply,
    token_intel healthy (request_token "Doge") = Return reply /\
    Legacy.token_intel healthy "Doge" = Return (output reply).
Proof.
  apply (token_intel_agrees_with_legacy healthy (request_token "Doge") "Doge").
  - reflexivity.
  - discriminate.
Defined.

(** X15: a reading without a timestamp fails the operation; the sample
    upstream's reading is dated. *)
Lemma fear_greed_returns_witness :
  fear_greed sentiment_undated = Throw (RangeError "Invalid time value") /\
  returns (fear_greed healthy).
Proof.
  split.
  - destruct (fear_greed_returns_iff sentiment_undated) as (_ & Hthrow & _).
    eapply Hthrow; [reflexivity|reflexivity|].
    intros H. inversion H as [|? ? (n & Hn & _) _]. discriminate.
  - destruct (fear_greed_returns_iff healthy) as (Hiff & _ & _).
    apply Hiff. eexists. split; [reflexivity|].
    intros entries [= <-]. repeat constructor.
    exists 1700000000. split; [reflexivity|]. vm_compute. discriminate.
Defined.

(** X16 at the score 12. *)
Lemma fear_greed_interpretation_witness :
  exists reply,
    fear_greed healthy = Return reply /\
    FearGreedOut.value (FearGreedOut.current (output reply)) = Some 12 /\
    FearGreedOut.interpretation (output reply)
    = "Extreme fear often signals buying opportunities"%string.
Proof.
  eexists. split; [vm_compute; reflexivity|].
  refine (let H := fear_greed_interpretation healthy _
                     (reading (val "12") (val "Extreme Fear")) eq_refl eq_refl in _).
  destruct H as (Hv & Hfear & _).
  split; [exact Hv|]. apply (Hfear 12); [reflexivity|lia].
Defined.

(** X17 at the sample upstream: five assets, no NFT list. *)
Lemma trending_rows_witness :
  exists reply,
    trending healthy = Return reply /\
    (List.length (TrendingOut.coins (output reply)) <= 10)%nat /\
    map TrendingOut.nft_name (TrendingOut.nfts (output reply)) = [].
Proof.
  destruct (trending_lists_leading_rows healthy) as (_ & Hrows).
  eexists. split; [vm_compute; reflexivity|].
  refine (let H := Hrows _ trending_five eq_refl eq_refl in _).
  destruct H as (_ & Hc & _ & _ & _ & Hn). split; [exact Hc|exact Hn].
Defined.

(** X18 at the sample upstream: the three protocols with a positive TVL,
    largest first. *)
Lemma defi_stats_rows_witness :
  exists reply,
    defi_stats healthy = Return reply /\
    map DefiOut.name (DefiOut.topProtocols (output reply))
    = [val "big"; val "mid"; val "small"]%string.
Proof.
  destruct (defi_stats_rows healthy) as (_ & Hrows).
  eexists. split; [vm_compute; reflexivity|].
  refine (let H := Hrows _ (topDeFi_of llama_list) _ eq_refl eq_refl eq_refl in _).
  destruct H as (_ & _ & Hn & _). exact Hn.
Defined.

(** X19 at the token "Doge", which the sample detail feed does not know,
    and at a request without a token. *)
Lemma token_lookup_id_witness :
  (exists reply, token_intel healthy (request_token "Doge") = Return reply
                 /\ output reply
                    = IntelOut.problem "Token doge not found"
                        "Use CoinGecko token ID (e.g., bitcoin, ethereum)") /\
  (exists reply, token_intel healthy request_empty = Return reply
                 /\ status reply = succeeded).
Proof.
  assert (Hdoge : readable (request_token "Doge")) by (now eexists).
  assert (Hempty : readable request_empty) by (now eexists).
  split.
  - assert (Hid : (exists t, requested_token (request_token "Doge") = val t
                             /\ t <> ""%string /\ "doge"%string = toLowerCase t)
                  \/ ((absent (requested_token (request_token "Doge"))
                       \/ requested_token (request_token "Doge") = val ""%string)
                      /\ "doge"%string = "bitcoin"%string)).
    { left. exists "Doge"%string. split; [reflexivity|]. split; [discriminate|reflexivity]. }
    destruct (token_lookup_id_is_lowercased_or_bitcoin healthy (request_token "Doge") "doge"
                Hdoge Hid) as (reply & Hret & _ & _ & Hmiss).
    exists reply. split; [exact Hret|].
    exact (Hmiss {| ok := false; json := Return no_detail |} eq_refl eq_refl).
  - assert (Hid : (exists t, requested_token request_empty = val t
                             /\ t <> ""%string /\ "bitcoin"%string = toLowerCase t)
                  \/ ((absent (requested_token request_empty)
                       \/ requested_token request_empty = val ""%string)
                      /\ "bitcoin"%string = "bitcoin"%string)).
    { right. split; [|reflexivity]. left. now left. }
    destruct (token_lookup_id_is_lowercased_or_bitcoin healthy request_empty "bitcoin"
                Hempty Hid) as (reply & Hret & Hfound & _).
    exists reply. split; [exact Hret|].
    refine (proj1 (Hfound _ _)). vm_compute. reflexivity.
Defined.

(** X10 at the selection of 'defillama' alone, which the earlier schema
    accepts. *)
Lemma digest_legacy_witness :
  daily_alpha healthy (request_sources ["defillama"])
  = (o <- Legacy.daily_alpha healthy ["defillama"]%string ;;
     Return {| run_id := randomUUID healthy; status := succeeded; output := o |}) /\
  Legacy.SourcesSchema (Some ["defillama"; "bogus"]%string) = None.
Proof.
  assert (Hb : readable (request_sources ["defillama"])) by (now eexists).
  destruct (digest_agrees_with_legacy healthy (request_sources ["defillama"]) Hb)
    as (Hsame & Hsel & _).
  split; [|reflexivity].
  rewrite Hsame.
  now rewrite (Hsel ["defillama"]%string ["defillama"]%string eq_refl eq_refl).
Defined.

(** The TVL of 1005000000 in billions: the quotient is the double just
    below 1.005, so two decimals give 1.00. *)
Example billions_rounds_the_binary64_quotient :
  billions (val (inject_Z 1005000000)) = "$1.00B"%string
  /\ billions (val (inject_Z 25300000000)) = "$25.30B"%string.
Proof. split; vm_compute; reflexivity. Qed.
